(** * RecordView: the console's list-item renderer

    A shallow embedding of
    [modules/atom-ide-ui/pkg/atom-ide-console/lib/ui/RecordView.js].

    The component is a React class.  Its methods are embedded as functions
    over an explicit world (the JavaScript heap holding the shared
    expansion-state object, the clock read by [Date.now()], and the log of
    calls made to the parent's [onHeightChange] callback).  JSX expressions
    become values of the inductive type [node], one constructor per element
    type that the file instantiates. *)

From Stdlib Require Import ZArith Lia.
From stdpp Require Import base option strings list gmap fin_maps pretty.

Local Open Scope Z_scope.

(** ** JavaScript values and the heap *)

Module JS.

(** Object identities.  Two references are [===] exactly when they are
    the same location. *)
Definition loc := positive.

Inductive value :=
| VUndefined
| VNull
| VBool (b : bool)
| VNum (n : Z)
| VStr (s : string)
| VObj (l : loc).

(** ToBoolean.  Numbers are integers here, so the only falsy number is 0. *)
Definition truthy (v : value) : bool :=
  match v with
  | VUndefined | VNull => false
  | VBool b => b
  | VNum n => negb (n =? 0)
  | VStr s => negb (String.eqb s "")
  | VObj _ => true
  end.

(** A plain object: its own string-keyed properties. *)
Abbreviation object := (gmap string value).
Abbreviation heap := (gmap loc (gmap string value)).

(** [o[k]]: a missing property (or a dangling reference, which a running
    program never holds) reads as [undefined]. *)
Definition get (h : heap) (l : loc) (k : string) : value :=
  match h !! l with
  | Some o => default VUndefined (o !! k)
  | None => VUndefined
  end.

(** [o[k] = v]: in-place update of the object stored at [l]. *)
Definition set (h : heap) (l : loc) (k : string) (v : value) : heap :=
  alter (fun o => <[k := v]> o) l h.

(** [{}]: a fresh empty object, at a location not yet in use. *)
Definition alloc (h : heap) : loc * heap :=
  let l := fresh (dom h) in (l, <[l := ∅]> h).

(** An immutable object together with its identity, for the objects that
    the component only reads and compares with [===] / [!==]: records
    and the callback functions passed as props. *)
Record ref (A : Type) := Ref { ref_id : loc; deref : A }.
Arguments Ref {A} _ _.
Arguments ref_id {A} _.
Arguments deref {A} _.

(** [a === b] on two such objects. *)
Definition same {A} (a b : ref A) : bool := bool_decide (ref_id a = ref_id b).

(** [s === lit] on a possibly absent string. *)
Definition str_is (s : option string) (lit : string) : bool :=
  match s with
  | Some s' => String.eqb s' lit
  | None => false
  end.

(** [s || d] on a possibly absent string. *)
Definition str_or (s : option string) (d : string) : string :=
  match s with
  | Some s' => if String.eqb s' "" then d else s'
  | None => d
  end.

End JS.

Import JS.

(** ** The record data model (the fields of [Record] the file reads) *)

(** [object.expression]: a debugger expression handle. *)
Record Expression := {
  reference : Z;
  getValue : string;
}.

(** One entry of [record.data.objects]. *)
Record ConsoleObject := {
  obj_description : option string;
  obj_type : option string;
  expression : Expression;
}.

(** [record.data]: an evaluation result, or a sequence of objects when
    [type] is ["objects"]. *)
Record Data := {
  data_type : option string;
  objects : option (list ConsoleObject);
  data_description : option string;
  data_value : option string;
}.

Record Record_ := {
  kind : string;
  level : option string;
  text : option string;
  format : option string;
  data : option Data;
  sourceId : string;
  sourceName : option string;
  timestamp : option Z;          (* a Date, as milliseconds since the epoch *)
  repeatCount : Z;
  incomplete : bool;
}.

(** A function handed over as a value and never called here
    ([getProperties]): only its identity matters. *)
Definition fetcher := loc.

(** What [getExecutor] and [getProvider] return: an [Executor] or a
    [SourceInfo]; the file reads only [getProperties] from either. *)
Record Provider := {
  getProperties : option fetcher;
}.

(** A DOM element: a host object whose [offsetHeight] is whatever the
    layout engine currently says (see [World]). *)
Definition HTMLElement := loc.

Record Props := {
  record : ref Record_;
  showSourceLabel : bool;
  getExecutor : ref (string -> option Provider);
  getProvider : ref (string -> option Provider);
  onHeightChange : loc;
  expansionStateId : loc;
}.

(** ** React elements *)

(** The value returned by [getComponent], by which of the two renderers
    it is.  For "text" the source builds a new arrow function on every
    call; the constructor says which renderer that function calls, not
    which function object it is. *)
Inductive valueComponent :=
| TextRendererWrapper          (* props => TextRenderer(props.evaluationResult) *)
| SimpleValueComponentType.    (* SimpleValueComponent itself *)

(** The [evaluationResult] prop of the two value widgets. *)
Inductive evaluationResult :=
| EvalObject (description : option string) (type : string) (objectId : Expression)
| EvalValue (type : string) (value : string)
| EvalData (d : option Data).

(** [RenderSegmentProps] of the Ansi widget. *)
Record RenderSegmentProps := {
  seg_key : Z;
  seg_style : string;
  seg_content : string;
}.

(** [toLocaleString()] or [toLocaleTimeString()] applied to a Date. *)
Inductive timestampLabel :=
| LocaleString (t : Z)
| LocaleTimeString (t : Z).

#[warnings="-register-all"]
Inductive node :=
| Nothing                                   (* null, undefined or false *)
| Text (s : string)
| Number (n : Z)
| DateText (l : timestampLabel)
| Pre (children : list node)
| Span (key : option Z) (style : option string) (className : string)
       (children : list node)
| Div (hasRef : bool) (className : string) (children : list node)
| Ansi (renderSegment : RenderSegmentProps -> node) (children : string)
| SimpleValueComponent (evalResult : evaluationResult)   (* expression={null} *)
| LazyNestedValueComponent
    (className : string)
    (evalResult : evaluationResult)
    (fetchChildren : option fetcher)
    (simpleValueComponent : valueComponent)
    (shouldCacheChildren : bool)
    (expansionState : value)
| FullWidthProgressBar (visible : bool)                  (* progress={null} *)
| MeasuredComponent (children : list node).              (* onMeasurementsChanged
                                                            is the instance's own
                                                            debounced method *)

(** ** Module-level functions *)

Definition ONE_DAY : Z := 1000 * 60 * 60 * 24.

(** The [switch] statements compare with [===]; on strings that is
    [String.eqb], and [str_is] extends it to a possibly absent string. *)

Definition getComponent (type : option string) : valueComponent :=
  if str_is type "text" then TextRendererWrapper
  else if str_is type "boolean" || str_is type "string" || str_is type "number"
          || str_is type "object"
  then SimpleValueComponentType
  else SimpleValueComponentType.

Definition getHighlightClassName (level : option string) : string :=
  if str_is level "info" then "highlight-info"
  else if str_is level "success" then "highlight-success"
  else if str_is level "warning" then "highlight-warning"
  else if str_is level "error" then "highlight-error"
  else "highlight".

Definition getIconName (r : Record_) : option string :=
  if String.eqb (kind r) "request" then Some "chevron-right"
  else if String.eqb (kind r) "response" then Some "arrow-small-left"
  else if str_is (level r) "info" then Some "info"
  else if str_is (level r) "success" then Some "check"
  else if str_is (level r) "warning" then Some "alert"
  else if str_is (level r) "error" then Some "stop"
  else None.

(** [classnames(...)]: the enabled names, joined by single spaces. *)
Definition classnames (names : list (string * bool)) : string :=
  String.concat " " (map fst (List.filter snd names)).

(** ** The world and the effect monad *)

Record World := {
  heap : JS.heap;
  clock : Z;                                      (* Date.now() *)
  layout : HTMLElement -> Z;                      (* el.offsetHeight *)
  heightChanges : list (loc * ref Record_ * Z);   (* calls of onHeightChange props:
                                                     callee, record, newHeight *)
}.

Definition with_heap (h : JS.heap) (w : World) : World :=
  {| heap := h; clock := clock w; layout := layout w;
     heightChanges := heightChanges w |}.

Definition with_clock (t : Z) (w : World) : World :=
  {| heap := heap w; clock := t; layout := layout w;
     heightChanges := heightChanges w |}.

Inductive error :=
| NullThrows.       (* nullthrows: "Got unexpected null or undefined" *)

Inductive outcome (A : Type) :=
| Ok (a : A)
| Throw (e : error).
Arguments Ok {A} _.
Arguments Throw {A} _.

Definition M (A : Type) : Type := World -> outcome A * World.

Definition ret {A} (a : A) : M A := fun w => (Ok a, w).

Definition throw {A} (e : error) : M A := fun w => (Throw e, w).

Definition bind {A B} (m : M A) (k : A -> M B) : M B :=
  fun w =>
    match m w with
    | (Ok a, w') => k a w'
    | (Throw e, w') => (Throw e, w')
    end.

Notation "x <- m ;; k" := (bind m (fun x => k))
  (at level 100, m at next level, right associativity).
Notation "m ;;; k" := (bind m (fun _ => k))
  (at level 100, right associativity).

Definition nullthrows {A} (x : option A) : M A :=
  match x with
  | Some a => ret a
  | None => throw NullThrows
  end.

Definition getProp (l : loc) (k : string) : M value :=
  fun w => (Ok (JS.get (heap w) l k), w).

Definition setProp (l : loc) (k : string) (v : value) : M unit :=
  fun w => (Ok tt, with_heap (JS.set (heap w) l k v) w).

Definition newObject : M value :=
  fun w => let '(l, h) := JS.alloc (heap w) in (Ok (VObj l), with_heap h w).

Definition dateNow : M Z := fun w => (Ok (clock w), w).

(** ** The debounce utility

    [debounce] is imported from [nuclide-commons/debounce], which lies
    outside this package.  The spec describes it as a deferred, coalescing
    wrapper with a fixed delay ("only the last invocation within a 10ms
    quiet window actually fires") that can be cancelled
    ("cancelable/disposed when the component is torn down"). *)

Module Debounce.

(** Modelled from the spec: the state of a debounced function, which
    [nuclide-commons/debounce] keeps in its closure; [pending] is the time
    of the last call while a timer is armed. *)
Record t := {
  wait : Z;
  pending : option Z;
}.

(** Modelled from the spec: [debounce(func, wait)] of
    [nuclide-commons/debounce]; nothing is scheduled yet. *)
Definition make (wait : Z) : t := {| wait := wait; pending := None |}.

(** Modelled from the spec: calling the debounced function of
    [nuclide-commons/debounce] at time [now] (re)starts the quiet window. *)
Definition call (now : Z) (d : t) : t :=
  {| wait := wait d; pending := Some now |}.

(** Modelled from the spec: the timer of [nuclide-commons/debounce] looked
    at at time [now]; the wrapped function fires (first component) once
    the quiet window has passed, and the timer is then gone. *)
Definition tick (now : Z) (d : t) : bool * t :=
  match pending d with
  | Some last =>
    if wait d <=? now - last
    then (true, {| wait := wait d; pending := None |})
    else (false, d)
  | None => (false, d)
  end.

(** Modelled from the spec: [debounced.dispose()] of
    [nuclide-commons/debounce] cancels the timer. *)
Definition dispose (d : t) : t := {| wait := wait d; pending := None |}.

End Debounce.

(** ** The component *)

(** An instance of the class: [this.props] and the two instance fields. *)
Record RecordView := {
  props : Props;
  _wrapper : option HTMLElement;
  _debouncedMeasureAndNotifyHeight : Debounce.t;
}.

Definition set_props (p : Props) (c : RecordView) : RecordView :=
  {| props := p; _wrapper := _wrapper c;
     _debouncedMeasureAndNotifyHeight := _debouncedMeasureAndNotifyHeight c |}.

Definition set_debounced (d : Debounce.t) (c : RecordView) : RecordView :=
  {| props := props c; _wrapper := _wrapper c;
     _debouncedMeasureAndNotifyHeight := d |}.

(** [shallowEqual] of the npm package of that name, on two props objects
    of type [Props]: the same six keys, each pair of values compared by
    identity (objects, functions) or by value (the boolean). *)
Definition shallowEqual (a b : Props) : bool :=
  same (record a) (record b)
  && Bool.eqb (showSourceLabel a) (showSourceLabel b)
  && same (getExecutor a) (getExecutor b)
  && same (getProvider a) (getProvider b)
  && bool_decide (onHeightChange a = onHeightChange b)
  && bool_decide (expansionStateId a = expansionStateId b).

(** ['child' + index]: the decimal numeral of the index appended to "child". *)
Definition childKey (index : nat) : string := "child" +:+ pretty index.

Section RecordView.

(** [parseText] of [../parseText]: turns text into renderable nodes
    (plain strings, links).  No property below depends on what it
    returns. *)
Variable parseText : string -> list node.

Definition AnsiRenderSegment (p : RenderSegmentProps) : node :=
  Span (Some (seg_key p)) (Some (seg_style p))
       "nuclide-console-default-text-colors"
       (parseText (seg_content p)).

Definition constructor (p : Props) : RecordView :=
  {| props := p; _wrapper := None;
     _debouncedMeasureAndNotifyHeight := Debounce.make 10 |}.

Definition measureAndNotifyHeight (this : RecordView) (w : World) : World :=
  match _wrapper this with
  | None => w
  | Some wrapper =>
    let offsetHeight := layout w wrapper in
    {| heap := heap w; clock := clock w; layout := layout w;
       heightChanges :=
         heightChanges w ++
         [(onHeightChange (props this), record (props this), offsetHeight)] |}
  end.

Definition _handleRecordWrapper (wrapper : option HTMLElement)
           (this : RecordView) : RecordView :=
  {| props := props this; _wrapper := wrapper;
     _debouncedMeasureAndNotifyHeight :=
       _debouncedMeasureAndNotifyHeight this |}.

Definition componentDidMount (this : RecordView) (w : World) : World :=
  measureAndNotifyHeight this w.

Definition componentDidUpdate (this : RecordView) (prevProps : Props)
           (w : World) : World :=
  if negb (same (record (props this)) (record prevProps))
  then measureAndNotifyHeight this w
  else w.

Definition componentWillUnmount (this : RecordView) : RecordView :=
  set_debounced (Debounce.dispose (_debouncedMeasureAndNotifyHeight this)) this.

Definition shouldComponentUpdate (this : RecordView) (nextProps : Props)
  : bool :=
  negb (shallowEqual (props this) nextProps).

(** The body of the [for ... of objects.entries()] loop, from [index]
    on; [children] is the array being pushed to. *)
Fixpoint renderObjects (getProperties : option fetcher)
         (expansionStateId : loc) (index : nat)
         (objs : list ConsoleObject) (children : list node)
  : M (list node) :=
  match objs with
  | [] => ret children
  | object :: rest =>
    let evaluationResult :=
      EvalObject (obj_description object)
                 (str_or (obj_type object) "")
                 (expression object) in
    let simpleValueComponent := getComponent (obj_type object) in
    let expansionStateKey := childKey index in
    slot <- getProp expansionStateId expansionStateKey ;;
    (if negb (truthy slot)
     then fresh <- newObject ;;
          setProp expansionStateId expansionStateKey fresh
     else ret tt) ;;;
    child <-
      (if reference (expression object) =? 0
       then ret (SimpleValueComponent
                   (EvalValue
                      (match obj_type object with
                       | Some t => t
                       | None => "text"
                       end)
                      (getValue (expression object))))
       else
         slot' <- getProp expansionStateId expansionStateKey ;;
         ret (LazyNestedValueComponent
                "console-lazy-nested-value"
                evaluationResult
                getProperties
                simpleValueComponent
                true
                slot')) ;;
    renderObjects getProperties expansionStateId (S index) rest
                  (children ++ [child])
  end.

Definition _renderNestedValueComponent (this : RecordView)
           (provider : option Provider) : M node :=
  let record := deref (record (props this)) in
  let expansionStateId := expansionStateId (props this) in
  let getProperties :=
    match provider with
    | None => None
    | Some p => getProperties p
    end in
  let type :=
    match data record with
    | None => None
    | Some d => data_type d
    end in
  if str_is type "objects" then
    objs <- nullthrows (match data record with
                        | None => None
                        | Some d => objects d
                        end) ;;
    children <- renderObjects getProperties expansionStateId 0 objs [] ;;
    ret (Span None None "console-multiple-objects" children)
  else
    let simpleValueComponent := getComponent type in
    ret (LazyNestedValueComponent
           "console-lazy-nested-value"
           (EvalData (data record))
           getProperties
           simpleValueComponent
           true
           (VObj expansionStateId)).

Definition _renderContent (this : RecordView) : M node :=
  let record := deref (record (props this)) in
  if String.eqb (kind record) "request" then
    ret (Pre [Text (str_or (text record) " ")])
  else if String.eqb (kind record) "response" then
    let executor := deref (getExecutor (props this)) (sourceId record) in
    _renderNestedValueComponent this executor
  else
    match data record with
    | Some _ =>
      let provider := deref (getProvider (props this)) (sourceId record) in
      _renderNestedValueComponent this provider
    | None =>
      let text := str_or (text record) " " in
      if str_is (format record) "ansi" then
        ret (Ansi AnsiRenderSegment text)
      else
        ret (Pre (parseText text))
    end.

(** The timestamp label of [render]. *)
Definition renderTimestamp (timestamp : option Z) : M node :=
  match timestamp with
  | Some t =>
    now <- dateNow ;;
    let timestampLabel :=
      if ONE_DAY <? now - t then LocaleString t else LocaleTimeString t in
    ret (Div false "console-record-timestamp" [DateText timestampLabel])
  | None => ret Nothing
  end.

Definition render (this : RecordView) : M node :=
  let record := deref (record (props this)) in
  let classNames :=
    classnames [("console-record", true);
                ("level-" +:+ str_or (level record) "log", true);
                ("request", String.eqb (kind record) "request");
                ("response", String.eqb (kind record) "response")] in
  let iconName := getIconName record in
  let icon :=
    match iconName with
    | Some n => if String.eqb n "" then Nothing
                else Span None None ("icon icon-" +:+ n) []
    | None => Nothing
    end in
  let sourceLabel :=
    if showSourceLabel (props this)
    then Span None None
              ("console-record-source-label "
                 +:+ getHighlightClassName (level record))
              [Text (default (sourceId record) (sourceName record))]
    else Nothing in
  renderedTimestamp <- renderTimestamp (timestamp record) ;;
  content <- _renderContent this ;;
  ret (MeasuredComponent
         [Div true classNames
              [icon;
               Div false "console-record-content-wrapper"
                   [if 1 <? repeatCount record
                    then Div false "console-record-duplicate-number"
                             [Number (repeatCount record)]
                    else Nothing;
                    Div false "console-record-content" [content]];
               sourceLabel;
               renderedTimestamp;
               FullWidthProgressBar (incomplete record)]]).

(** ** The host's side: how React and the timer queue drive the class

    These follow React's documented class-component protocol; they are
    the callers of the methods above, not part of the file. *)

(** Mounting: construct, render, attach the ref of the wrapper [div],
    then [componentDidMount]. *)
Definition mount (p : Props) (el : HTMLElement) : M RecordView :=
  let this := constructor p in
  render this ;;;
  let this := _handleRecordWrapper (Some el) this in
  fun w => (Ok this, componentDidMount this w).

(** Receiving props: [shouldComponentUpdate] decides whether [render]
    and [componentDidUpdate] run; [this.props] is replaced either way. *)
Definition update (nextProps : Props) (this : RecordView) : M RecordView :=
  if shouldComponentUpdate this nextProps then
    let prevProps := props this in
    let this := set_props nextProps this in
    render this ;;;
    fun w => (Ok this, componentDidUpdate this prevProps w)
  else
    ret (set_props nextProps this).

(** [MeasuredComponent] reports a size change: it calls the debounced
    method given as [onMeasurementsChanged]. *)
Definition measurementsChanged (this : RecordView) (w : World) : RecordView :=
  set_debounced
    (Debounce.call (clock w) (_debouncedMeasureAndNotifyHeight this)) this.

(** The timer queue runs: a due debounce timer calls
    [measureAndNotifyHeight].  The boolean says whether it was called. *)
Definition runTimers (this : RecordView) (w : World)
  : bool * RecordView * World :=
  let '(fires, d) :=
    Debounce.tick (clock w) (_debouncedMeasureAndNotifyHeight this) in
  (fires, set_debounced d this,
   if fires then measureAndNotifyHeight this w else w).

(** [dt] milliseconds pass, then the timer queue runs. *)
Definition elapse (dt : Z) (this : RecordView) (w : World)
  : bool * RecordView * World :=
  runTimers this (with_clock (clock w + dt) w).

(** A sequence of such steps; the number counts the calls of
    [measureAndNotifyHeight] made by the timer. *)
Fixpoint elapseAll (dts : list Z) (this : RecordView) (w : World)
  : nat * RecordView * World :=
  match dts with
  | [] => (O, this, w)
  | dt :: rest =>
    let '(fires, this', w') := elapse dt this w in
    let '(n, this'', w'') := elapseAll rest this' w' in
    ((if fires then S n else n), this'', w'')
  end.

(** Unmounting: [componentWillUnmount]. *)
Definition unmount (this : RecordView) : RecordView :=
  componentWillUnmount this.

End RecordView.

(** ** Concrete records, props and worlds used by the examples below *)

Module Examples.

Definition parse (s : string) : list node := [Text s].

Definition noProvider : ref (string -> option Provider) :=
  Ref 50%positive (fun _ => None).

Definition withFetcher : ref (string -> option Provider) :=
  Ref 51%positive (fun _ => Some {| getProperties := Some 70%positive |}).

Definition mkRecord (k : string) (lv tx fm : option string)
           (d : option Data) (ts : option Z) : Record_ :=
  {| kind := k; level := lv; text := tx; format := fm; data := d;
     sourceId := "src"; sourceName := None; timestamp := ts;
     repeatCount := 1; incomplete := false |}.

Definition mkProps (id : loc) (r : Record_) : Props :=
  {| record := Ref id r; showSourceLabel := false;
     getExecutor := withFetcher; getProvider := noProvider;
     onHeightChange := 60%positive; expansionStateId := 1%positive |}.

(** A world whose heap holds an empty expansion-state object at 1. *)
Definition world (h : JS.heap) (now : Z) : World :=
  {| heap := h; clock := now; layout := fun _ => 17; heightChanges := [] |}.

Definition emptyState : JS.heap := {[ 1%positive := ∅ ]}.

Definition ansiRequest : Record_ :=
  mkRecord "request" (Some "error") (Some "x") (Some "ansi") None None.

Definition ansiLog : Record_ :=
  mkRecord "message" (Some "info") (Some "x") (Some "ansi") None None.

Definition emptyRequest : Record_ :=
  mkRecord "request" None (Some "") None None None.

Definition primitive : ConsoleObject :=
  {| obj_description := Some "1"; obj_type := None;
     expression := {| reference := 0; getValue := "1" |} |}.

Definition handle : ConsoleObject :=
  {| obj_description := Some "Object"; obj_type := Some "object";
     expression := {| reference := 5; getValue := "" |} |}.

Definition twoObjects : Data :=
  {| data_type := Some "objects"; objects := Some [primitive; handle];
     data_description := None; data_value := None |}.

Definition noObjects : Data :=
  {| data_type := Some "objects"; objects := None;
     data_description := None; data_value := None |}.

Definition objectsLog : Record_ :=
  mkRecord "message" None None None (Some twoObjects) None.

Definition brokenLog : Record_ :=
  mkRecord "message" None None None (Some noObjects) None.

Definition oneObjectLog : Record_ :=
  mkRecord "message" None None None
           (Some {| data_type := Some "objects"; objects := Some [handle];
                    data_description := None; data_value := None |})
           None.

Definition handleThenPrimitive : Record_ :=
  mkRecord "message" None None None
           (Some {| data_type := Some "objects";
                    objects := Some [handle; primitive];
                    data_description := None; data_value := None |})
           None.

Definition emptyResponse : Record_ :=
  mkRecord "response" None None (Some "ansi") None None.

Definition emptyLog : Record_ :=
  mkRecord "message" (Some "warning") None None None None.

Definition repeated : Record_ :=
  {| kind := "message"; level := Some "error"; text := Some "boom";
     format := None; data := None; sourceId := "src";
     sourceName := Some "stdout"; timestamp := None;
     repeatCount := 3; incomplete := true |}.

Definition stamped (ts : Z) : Record_ :=
  mkRecord "message" None (Some "x") None None (Some ts).

(** The props of [mkProps 100 r] with the source label switched on. *)
Definition labelled (r : Record_) : Props :=
  {| record := Ref 100%positive r; showSourceLabel := true;
     getExecutor := withFetcher; getProvider := noProvider;
     onHeightChange := 60%positive; expansionStateId := 1%positive |}.

Definition mounted (r : Record_) : RecordView :=
  _handleRecordWrapper (Some 9%positive) (constructor (mkProps 100%positive r)).

End Examples.

(** ** Observations used to state the properties *)

Abbreviation rec_of this := (deref (record (props this))).

(** The timestamp slot of the tree returned by [render]: the fourth child
    of the wrapper [div]. *)
Definition timestampChild (n : node) : option node :=
  match n with
  | MeasuredComponent [Div _ _ [_; _; _; ts; _]] => Some ts
  | _ => None
  end.

(** One call of [onHeightChange] made by [this] in world [w]: the callee
    is the prop, the arguments are the current record and the wrapper's
    [offsetHeight]. *)
Definition heightReport (this : RecordView) (w : World) (el : HTMLElement)
  : loc * ref Record_ * Z :=
  (onHeightChange (props this), record (props this), layout w el).

(** What one round of the loop of [_renderNestedValueComponent] does to
    the world: the slot under [k] is initialised unless it is truthy. *)
Definition ensureSlot (esid : loc) (k : string) (w : World) : World :=
  if truthy (JS.get (heap w) esid k) then w
  else
    let l := fresh (dom (heap w)) in
    with_heap (JS.set (<[l := ∅]> (heap w)) esid k (VObj l)) w.

(** The child pushed for one object, given the slot that was read. *)
Definition renderedObject (getProperties : option fetcher) (slot : value)
           (object : ConsoleObject) : node :=
  if reference (expression object) =? 0
  then SimpleValueComponent
         (EvalValue (default "text" (obj_type object))
                    (getValue (expression object)))
  else LazyNestedValueComponent
         "console-lazy-nested-value"
         (EvalObject (obj_description object)
                     (str_or (obj_type object) "")
                     (expression object))
         getProperties
         (getComponent (obj_type object))
         true
         slot.

(** How the heap may differ after a render, seen from the expansion-state
    object at [esid]: every other object that existed is untouched; the
    object at [esid] is still there, keeps every entry (truthy ones with
    their value), and any entry that is new or changed is a child key
    whose slot was missing or falsy and now holds a fresh empty object. *)
Definition extends (esid : loc) (h h' : JS.heap) : Prop :=
  (forall l o, l <> esid -> h !! l = Some o -> h' !! l = Some o) /\
  (forall o, h !! esid = Some o ->
     exists o', h' !! esid = Some o' /\
       (forall k v, o !! k = Some v -> truthy v = true -> o' !! k = Some v) /\
       (forall k, is_Some (o !! k) -> is_Some (o' !! k)) /\
       (forall k v', o' !! k = Some v' ->
          o !! k = Some v' \/
          exists i l,
            k = childKey i /\
            truthy (default VUndefined (o !! k)) = false /\
            v' = VObj l /\ h !! l = None /\ h' !! l = Some ∅)).

(** The other slots of the tree returned by [render]. *)

Definition rootClassName (n : node) : option string :=
  match n with
  | MeasuredComponent [Div _ className _] => Some className
  | _ => None
  end.

Definition iconChild (n : node) : option node :=
  match n with
  | MeasuredComponent [Div _ _ [icon; _; _; _; _]] => Some icon
  | _ => None
  end.

Definition badgeChild (n : node) : option node :=
  match n with
  | MeasuredComponent [Div _ _ [_; Div _ _ [badge; _]; _; _; _]] => Some badge
  | _ => None
  end.

Definition contentChild (n : node) : option node :=
  match n with
  | MeasuredComponent [Div _ _ [_; Div _ _ [_; Div _ _ [content]]; _; _; _]] =>
    Some content
  | _ => None
  end.

Definition sourceLabelChild (n : node) : option node :=
  match n with
  | MeasuredComponent [Div _ _ [_; _; label; _; _]] => Some label
  | _ => None
  end.

Definition progressChild (n : node) : option node :=
  match n with
  | MeasuredComponent [Div _ _ [_; _; _; _; bar]] => Some bar
  | _ => None
  end.

(** The record makes [nullthrows] fail: it is not a request, and its data
    says "objects" without carrying the sequence. *)
Definition objectsMissing (r : Record_) : Prop :=
  kind r <> "request" /\
  exists d, data r = Some d /\ data_type d = Some "objects" /\ objects d = None.

(** ** Properties *)

Lemma eqb_lit_false (s lit : string) : s <> lit -> String.eqb s lit = false.
Proof. apply String.eqb_neq. Qed.

(** *** Icon selection *)

(** C8: the icon is chosen by kind first and by level second: a request
    always gets the request glyph, a response the response glyph, and any
    other kind gets the glyph of its level (info, success, warning,
    error) or no icon when the level is none of those. *)
Theorem getIconName_kind_then_level (r : Record_) :
  (kind r = "request" -> getIconName r = Some "chevron-right") /\
  (kind r = "response" -> getIconName r = Some "arrow-small-left") /\
  (kind r <> "request" -> kind r <> "response" ->
     (level r = Some "info" -> getIconName r = Some "info") /\
     (level r = Some "success" -> getIconName r = Some "check") /\
     (level r = Some "warning" -> getIconName r = Some "alert") /\
     (level r = Some "error" -> getIconName r = Some "stop") /\
     (level r <> Some "info" -> level r <> Some "success" ->
      level r <> Some "warning" -> level r <> Some "error" ->
      getIconName r = None)).
Proof.
  unfold getIconName.
  split; [intros ->; reflexivity|].
  split; [intros ->; reflexivity|].
  intros Hreq Hresp.
  rewrite (eqb_lit_false _ _ Hreq), (eqb_lit_false _ _ Hresp).
  repeat split.
  - intros ->; reflexivity.
  - intros ->; reflexivity.
  - intros ->; reflexivity.
  - intros ->; reflexivity.
  - intros Hi Hs Hw He.
    destruct (level r) as [l|]; simpl; [|reflexivity].
    assert (forall lit, Some l <> Some lit -> String.eqb l lit = false) as Hne.
    { intros lit H. apply eqb_lit_false. congruence. }
    rewrite (Hne _ Hi), (Hne _ Hs), (Hne _ Hw), (Hne _ He). reflexivity.
Qed.

(** A request whose level is "error" still gets the request glyph. *)
Lemma getIconName_kind_then_level_witness :
  getIconName Examples.ansiRequest = Some "chevron-right".
Proof.
  apply (proj1 (getIconName_kind_then_level Examples.ansiRequest)).
  reflexivity.
Defined.

Example icon_error_log :
  getIconName (Examples.mkRecord "message" (Some "error") None None None None)
  = Some "stop".
Proof. reflexivity. Qed.

Example icon_no_level :
  getIconName (Examples.mkRecord "message" None None None None None) = None.
Proof. reflexivity. Qed.

(** *** Content selection *)

Section Content.

Variable parseText : string -> list node.

(** C5: a request is rendered as a [<pre>] holding the record's text, or
    a single space when the text is empty or absent, whatever the other
    fields of the record are; the world is left as it was. *)
Theorem request_content_is_pre this w :
  kind (rec_of this) = "request" ->
  (forall s, text (rec_of this) = Some s -> s <> "" ->
     _renderContent parseText this w = (Ok (Pre [Text s]), w)) /\
  (text (rec_of this) = Some "" \/ text (rec_of this) = None ->
     _renderContent parseText this w = (Ok (Pre [Text " "]), w)).
Proof.
  intros Hk. unfold _renderContent. rewrite Hk. simpl.
  split.
  - intros s -> Hs. simpl. rewrite (eqb_lit_false _ _ Hs). reflexivity.
  - intros [-> | ->]; reflexivity.
Qed.

(** C1 (as amended): a record with format "ansi" is rendered by the Ansi
    widget with [AnsiRenderSegment] when it reaches the plain-text
    branch, that is when its kind is neither "request" nor "response"
    and it carries no data. *)
Theorem ansi_log_content_is_ansi this w :
  format (rec_of this) = Some "ansi" ->
  kind (rec_of this) <> "request" ->
  kind (rec_of this) <> "response" ->
  data (rec_of this) = None ->
  _renderContent parseText this w =
  (Ok (Ansi (AnsiRenderSegment parseText)
            (str_or (text (rec_of this)) " ")), w).
Proof.
  intros Hf Hreq Hresp Hd. unfold _renderContent.
  rewrite (eqb_lit_false _ _ Hreq), (eqb_lit_false _ _ Hresp), Hd, Hf.
  reflexivity.
Qed.

End Content.

Lemma request_content_is_pre_witness :
  _renderContent Examples.parse (Examples.mounted Examples.emptyRequest)
                 (Examples.world Examples.emptyState 0)
  = (Ok (Pre [Text " "]), Examples.world Examples.emptyState 0).
Proof.
  apply (request_content_is_pre Examples.parse
           (Examples.mounted Examples.emptyRequest)).
  - reflexivity.
  - left. reflexivity.
Defined.

Lemma ansi_log_content_is_ansi_witness :
  _renderContent Examples.parse (Examples.mounted Examples.ansiLog)
                 (Examples.world Examples.emptyState 0)
  = (Ok (Ansi (AnsiRenderSegment Examples.parse) "x"),
     Examples.world Examples.emptyState 0).
Proof.
  apply (ansi_log_content_is_ansi Examples.parse
           (Examples.mounted Examples.ansiLog)).
  - reflexivity.
  - discriminate.
  - discriminate.
  - reflexivity.
Defined.

(** C1 does not hold as stated: a request with format "ansi" is rendered
    through [<pre>], not through the Ansi widget. *)
Lemma ansi_request_is_not_ansi :
  ~ (forall parseText this w,
       format (rec_of this) = Some "ansi" ->
       exists t w',
         _renderContent parseText this w =
         (Ok (Ansi (AnsiRenderSegment parseText) t), w')).
Proof.
  intros H.
  destruct (H Examples.parse (Examples.mounted Examples.ansiRequest)
              (Examples.world Examples.emptyState 0) eq_refl)
    as (t & w' & Heq).
  discriminate Heq.
Qed.

Example ansi_request_content :
  _renderContent Examples.parse (Examples.mounted Examples.ansiRequest)
                 (Examples.world Examples.emptyState 0)
  = (Ok (Pre [Text "x"]), Examples.world Examples.emptyState 0).
Proof. reflexivity. Qed.

(** *** The timestamp label *)

Section Timestamp.

Variable parseText : string -> list node.



End Timestamp.

(** A timestamp 24h + 1ms in the past: full format. *)
Example timestamp_day_and_1ms :
  timestampChild
    <$> (match render Examples.parse (Examples.mounted (Examples.stamped 5))
                      (Examples.world Examples.emptyState 86400006) with
         | (Ok el, _) => Some el
         | _ => None
         end)
  = Some (Some (Div false "console-record-timestamp"
                    [DateText (LocaleString 5)])).
Proof. reflexivity. Qed.

(** A timestamp 1ms in the past, and one exactly 24h in the past: time only. *)
Example timestamp_1ms :
  fst (renderTimestamp (Some 5) (Examples.world Examples.emptyState 6))
  = Ok (Div false "console-record-timestamp" [DateText (LocaleTimeString 5)]).
Proof. reflexivity. Qed.

Example timestamp_exactly_one_day :
  fst (renderTimestamp (Some 5) (Examples.world Examples.emptyState 86400005))
  = Ok (Div false "console-record-timestamp" [DateText (LocaleTimeString 5)]).
Proof. reflexivity. Qed.

(** *** The loop over [record.data.objects] *)

Lemma childKey_inj i j : childKey i = childKey j -> i = j.
Proof.
  unfold childKey. intros H.
  apply (inj (String.append "child")) in H.
  apply (inj pretty) in H. exact H.
Qed.

Lemma renderObjects_cons gp esid i o rest acc w :
  renderObjects gp esid i (o :: rest) acc w =
  let w1 := ensureSlot esid (childKey i) w in
  renderObjects gp esid (S i) rest
    (acc ++ [renderedObject gp (JS.get (heap w1) esid (childKey i)) o]) w1.
Proof.
  cbn [renderObjects]. unfold bind, getProp, ensureSlot, renderedObject.
  destruct (truthy (JS.get (heap w) esid (childKey i))) eqn:Ht; cbn.
  - destruct (reference (expression o) =? 0); cbn;
      destruct (obj_type o); reflexivity.
  - destruct (reference (expression o) =? 0); cbn;
      destruct (obj_type o); reflexivity.
Qed.

Lemma fresh_loc_unused (h : JS.heap) : h !! fresh (dom h) = None.
Proof. apply not_elem_of_dom. apply is_fresh. Qed.

Lemma extends_refl esid (h : JS.heap) : extends esid h h.
Proof.
  split; [auto|].
  intros o Ho. exists o. repeat split; auto.
Qed.

Lemma extends_lookup_mono esid (h h' : JS.heap) l :
  extends esid h h' -> is_Some (h !! l) -> is_Some (h' !! l).
Proof.
  intros [H1 H2] [o Ho].
  destruct (decide (l = esid)) as [->|Hne].
  - destruct (H2 o Ho) as (o' & Ho' & _). eauto.
  - rewrite (H1 l o Hne Ho). eauto.
Qed.

Lemma extends_trans esid (h0 h1 h2 : JS.heap) :
  extends esid h0 h1 -> extends esid h1 h2 -> extends esid h0 h2.
Proof.
  intros E01 E12.
  pose proof E01 as [A1 A2]. pose proof E12 as [B1 B2].
  split.
  - intros l o Hne Ho. apply B1; [exact Hne|]. apply A1; assumption.
  - intros o Ho.
    destruct (A2 o Ho) as (o1 & Ho1 & Akeep & Adel & Anew).
    destruct (B2 o1 Ho1) as (o2 & Ho2 & Bkeep & Bdel & Bnew).
    exists o2. split; [exact Ho2|]. split; [|split].
    + intros k v Hk Hv. apply Bkeep; [|exact Hv]. apply Akeep; assumption.
    + intros k Hk. apply Bdel, Adel, Hk.
    + intros k v' Hk.
      destruct (Bnew k v' Hk) as [Hold | (i & l & -> & Hf & -> & Hl1 & Hl2)].
      * destruct (Anew k v' Hold) as [Hold0 | (i & l & -> & Hf & -> & Hl0 & Hl1)];
          [left; exact Hold0|].
        right. exists i, l. repeat split; try assumption.
        apply B1; [|exact Hl1]. intros ->. congruence.
      * right. exists i, l. repeat split; try assumption.
        -- destruct (o !! childKey i) as [v|] eqn:Hv; [|reflexivity].
           simpl. destruct (truthy v) eqn:Htv; [|reflexivity].
           rewrite (Akeep _ _ Hv Htv) in Hf. simpl in Hf. congruence.
        -- destruct (h0 !! l) eqn:Hl0; [|reflexivity].
           destruct (extends_lookup_mono esid h0 h1 l E01) as [x Hx]; [eauto|].
           congruence.
Qed.

Lemma ensureSlot_extends esid i w :
  extends esid (heap w) (heap (ensureSlot esid (childKey i) w)).
Proof.
  unfold ensureSlot.
  destruct (truthy (JS.get (heap w) esid (childKey i))) eqn:Ht;
    [apply extends_refl|].
  cbn. set (h := heap w) in *. set (l := fresh (dom h)).
  assert (h !! l = None) as Hl by apply fresh_loc_unused.
  unfold JS.set. split.
  - intros l0 o Hne Ho.
    rewrite lookup_alter_ne by congruence.
    rewrite lookup_insert_ne by congruence. exact Ho.
  - intros o Ho.
    assert (esid <> l) as Hne by congruence.
    exists (<[childKey i := VObj l]> o). split.
    { rewrite lookup_alter_eq, lookup_insert_ne by congruence.
      rewrite Ho. reflexivity. }
    unfold JS.get in Ht. rewrite Ho in Ht.
    split; [|split].
    + intros k v Hk Hv.
      destruct (decide (k = childKey i)) as [->|Hk'].
      * rewrite Hk in Ht. simpl in Ht. congruence.
      * rewrite lookup_insert_ne by congruence. exact Hk.
    + intros k Hk.
      destruct (decide (k = childKey i)) as [->|Hk'].
      * rewrite lookup_insert_eq. eauto.
      * rewrite lookup_insert_ne by congruence. exact Hk.
    + intros k v' Hk.
      destruct (decide (k = childKey i)) as [->|Hk'].
      * rewrite lookup_insert_eq in Hk. inversion Hk; subst v'.
        right. exists i, l. repeat split; try assumption.
        rewrite lookup_alter_ne by congruence. apply lookup_insert_eq.
      * rewrite lookup_insert_ne in Hk by congruence. left. exact Hk.
Qed.

Lemma ensureSlot_frame esid k w :
  clock (ensureSlot esid k w) = clock w /\
  layout (ensureSlot esid k w) = layout w /\
  heightChanges (ensureSlot esid k w) = heightChanges w.
Proof.
  unfold ensureSlot. destruct (truthy _); repeat split; reflexivity.
Qed.

Lemma ensureSlot_get_other esid k k' w :
  is_Some (heap w !! esid) -> k <> k' ->
  JS.get (heap (ensureSlot esid k' w)) esid k = JS.get (heap w) esid k.
Proof.
  intros [o Ho] Hk. unfold ensureSlot.
  destruct (truthy (JS.get (heap w) esid k')); [reflexivity|].
  cbn. pose proof (fresh_loc_unused (heap w)) as Hl.
  unfold JS.get, JS.set.
  rewrite lookup_alter_eq, lookup_insert_ne by congruence.
  rewrite Ho. cbn. rewrite lookup_insert_ne by congruence. reflexivity.
Qed.

Lemma ensureSlot_truthy esid k w :
  is_Some (heap w !! esid) ->
  truthy (JS.get (heap (ensureSlot esid k w)) esid k) = true.
Proof.
  intros [o Ho]. unfold ensureSlot.
  destruct (truthy (JS.get (heap w) esid k)) eqn:Ht; [exact Ht|].
  cbn. pose proof (fresh_loc_unused (heap w)) as Hl.
  unfold JS.get, JS.set.
  rewrite lookup_alter_eq, lookup_insert_ne by congruence.
  rewrite Ho. cbn. rewrite lookup_insert_eq. reflexivity.
Qed.

(** The loop always completes; it pushes one child per object, leaves the
    clock, the layout and the height log alone, and changes the heap only
    by initialising child slots. *)
Lemma renderObjects_runs gp esid objs : forall i acc w,
  exists children w',
    renderObjects gp esid i objs acc w = (Ok (acc ++ children), w') /\
    length children = length objs /\
    extends esid (heap w) (heap w') /\
    clock w' = clock w /\ layout w' = layout w /\
    heightChanges w' = heightChanges w.
Proof.
  induction objs as [|o rest IH]; intros i acc w.
  - exists [], w. rewrite app_nil_r. cbn.
    split; [reflexivity|]. split; [reflexivity|].
    split; [apply extends_refl|]. repeat split; reflexivity.
  - rewrite renderObjects_cons. cbv zeta.
    set (w1 := ensureSlot esid (childKey i) w).
    destruct (IH (S i)
                 (acc ++ [renderedObject gp (JS.get (heap w1) esid (childKey i)) o])
                 w1)
      as (ch & w' & Hrun & Hlen & Hext & Hc & Hl & Hh).
    destruct (ensureSlot_frame esid (childKey i) w) as (Fc & Fl & Fh).
    exists (renderedObject gp (JS.get (heap w1) esid (childKey i)) o :: ch), w'.
    rewrite Hrun, <- app_assoc. cbn [app length].
    fold w1 in Fc, Fl, Fh.
    split; [reflexivity|]. split; [congruence|].
    split; [eapply extends_trans; [apply ensureSlot_extends|exact Hext]|].
    repeat split; congruence.
Qed.

(** With the expansion-state object present, the slots read by the loop
    are the entries found in the heap once the loop is over. *)
Lemma renderObjects_slots gp esid objs : forall i acc w children w',
  is_Some (heap w !! esid) ->
  renderObjects gp esid i objs acc w = (Ok (acc ++ children), w') ->
  is_Some (heap w' !! esid) /\
  (forall k, (forall j, (i <= j)%nat -> k <> childKey j) ->
             JS.get (heap w') esid k = JS.get (heap w) esid k) /\
  (forall j o, objs !! j = Some o ->
     truthy (JS.get (heap w') esid (childKey (i + j))) = true /\
     children !! j =
     Some (renderedObject gp (JS.get (heap w') esid (childKey (i + j))) o)).
Proof.
  induction objs as [|o rest IH]; intros i acc w children w' Hesid Hrun.
  - cbn in Hrun. inversion Hrun; subst w'.
    split; [exact Hesid|]. split; [reflexivity|].
    intros j o Hj. rewrite lookup_nil in Hj. discriminate.
  - rewrite renderObjects_cons in Hrun. cbv zeta in Hrun.
    set (w1 := ensureSlot esid (childKey i) w) in *.
    set (c := renderedObject gp (JS.get (heap w1) esid (childKey i)) o) in *.
    assert (is_Some (heap w1 !! esid)) as Hesid1.
    { eapply extends_lookup_mono; [apply ensureSlot_extends|exact Hesid]. }
    destruct (renderObjects_runs gp esid rest (S i) (acc ++ [c]) w1)
      as (ch & w2 & Hrun2 & _).
    rewrite Hrun2 in Hrun. inversion Hrun as [[Happ Hw]]. subst w2.
    rewrite <- app_assoc in Happ. apply app_inv_head in Happ.
    cbn in Happ. subst children.
    destruct (IH (S i) (acc ++ [c]) w1 ch w' Hesid1 Hrun2)
      as (Hesid' & Hother & Hch).
    assert (JS.get (heap w') esid (childKey i)
            = JS.get (heap w1) esid (childKey i)) as Hstable.
    { apply Hother. intros j Hj Heq. apply childKey_inj in Heq. lia. }
    split; [exact Hesid'|]. split.
    + intros k Hk. rewrite Hother.
      * apply ensureSlot_get_other; [exact Hesid|].
        apply Hk. lia.
      * intros j Hj. apply Hk. lia.
    + intros [|j] o' Hj.
      * cbn in Hj. inversion Hj; subst o'.
        rewrite Nat.add_0_r, Hstable. split; [|reflexivity].
        apply ensureSlot_truthy. exact Hesid.
      * cbn in Hj. replace (i + S j)%nat with (S i + j)%nat by lia.
        apply (Hch j o' Hj).
Qed.

(** *** Nested values *)

Example childKey_0 : childKey 0 = "child0".
Proof. reflexivity. Qed.

Example childKey_12 : childKey 12 = "child12".
Proof. reflexivity. Qed.

(** C2: for a record whose data has type "objects" and a sequence of N
    objects, the nested-value rendering returns a container with exactly N
    children, the i-th for the i-th object: a simple value (resolved value
    of the expression, type defaulting to "text") when the expression's
    reference is 0, and otherwise a lazily expandable node whose expansion
    state is the entry of the shared expansion-state object under the key
    "child" + i, the string "child" followed by the decimal numeral of i
    ("child0", "child1", ...); these keys are pairwise distinct. *)
Theorem objects_render_one_child_each this provider w d objs :
  data (rec_of this) = Some d ->
  data_type d = Some "objects" ->
  objects d = Some objs ->
  is_Some (heap w !! expansionStateId (props this)) ->
  exists children w',
    _renderNestedValueComponent this provider w =
    (Ok (Span None None "console-multiple-objects" children), w') /\
    length children = length objs /\
    (forall i j : nat, "child" +:+ pretty i = "child" +:+ pretty j -> i = j) /\
    forall i o, objs !! i = Some o ->
      let slot := JS.get (heap w') (expansionStateId (props this))
                         ("child" +:+ pretty i) in
      (reference (expression o) = 0 ->
       children !! i =
       Some (SimpleValueComponent
               (EvalValue (match obj_type o with Some t => t | None => "text" end)
                          (getValue (expression o))))) /\
      (reference (expression o) <> 0 ->
       truthy slot = true /\
       children !! i =
       Some (LazyNestedValueComponent
               "console-lazy-nested-value"
               (EvalObject (obj_description o) (str_or (obj_type o) "")
                           (expression o))
               (match provider with None => None | Some p => getProperties p end)
               (getComponent (obj_type o))
               true
               slot)).
Proof.
  intros Hd Ht Ho Hesid.
  unfold _renderNestedValueComponent. rewrite Hd, Ht, Ho. cbn [str_is].
  change (String.eqb "objects" "objects") with true. cbv iota.
  set (gp := match provider with None => None | Some p => getProperties p end).
  set (esid := expansionStateId (props this)) in *.
  destruct (renderObjects_runs gp esid objs 0 [] w)
    as (children & w' & Hrun & Hlen & _).
  destruct (renderObjects_slots gp esid objs 0 [] w children w' Hesid Hrun)
    as (_ & _ & Hch).
  exists children, w'.
  split.
  { unfold bind at 1. cbn [nullthrows ret]. unfold bind. rewrite Hrun.
    reflexivity. }
  split; [exact Hlen|]. split; [exact childKey_inj|].
  intros i o Hi. cbv zeta.
  change ("child" +:+ pretty i) with (childKey i).
  destruct (Hch i o Hi) as [Htruthy Hchild]. cbn [Nat.add] in *.
  unfold renderedObject in Hchild.
  split.
  - intros Href. rewrite Href in Hchild. cbn in Hchild.
    rewrite Hchild. destruct (obj_type o); reflexivity.
  - intros Href. apply Z.eqb_neq in Href. rewrite Href in Hchild.
    split; assumption.
Qed.

(** Two objects: the second one is a handle, and its node gets the entry
    found under the key "child1". *)
Lemma objects_render_one_child_each_witness :
  exists children w',
    _renderNestedValueComponent (Examples.mounted Examples.objectsLog) None
                                (Examples.world Examples.emptyState 0)
    = (Ok (Span None None "console-multiple-objects" children), w') /\
    length children = 2%nat /\
    truthy (JS.get (heap w') 1%positive "child1") = true /\
    children !! 1%nat
    = Some (LazyNestedValueComponent
              "console-lazy-nested-value"
              (EvalObject (Some "Object") "object"
                          {| reference := 5; getValue := "" |})
              None SimpleValueComponentType true
              (JS.get (heap w') 1%positive "child1")).
Proof.
  destruct (objects_render_one_child_each
              (Examples.mounted Examples.objectsLog) None
              (Examples.world Examples.emptyState 0)
              Examples.twoObjects [Examples.primitive; Examples.handle])
    as (children & w' & Hrun & Hlen & _ & Hch).
  - reflexivity.
  - reflexivity.
  - reflexivity.
  - exists ∅. reflexivity.
  - exists children, w'. split; [exact Hrun|]. split; [exact Hlen|].
    destruct (Hch 1%nat Examples.handle eq_refl) as [_ Hlazy].
    exact (Hlazy ltac:(discriminate)).
Defined.

(** The slots of that render sit under "child0" and "child1", and under
    no other key. *)
Example objects_render_keys :
  map fst
      (map_to_list
         (default ∅
            (heap (snd (_renderNestedValueComponent
                          (Examples.mounted Examples.objectsLog) None
                          (Examples.world Examples.emptyState 0)))
             !! 1%positive)))
  ≡ₚ ["child0"; "child1"].
Proof. vm_compute. apply Permutation_refl || (apply perm_swap). Qed.

Example objects_render_two :
  fst (_renderNestedValueComponent (Examples.mounted Examples.objectsLog)
         (Some {| getProperties := Some 70%positive |})
         (Examples.world Examples.emptyState 0))
  = Ok (Span None None "console-multiple-objects"
          [SimpleValueComponent (EvalValue "text" "1");
           LazyNestedValueComponent
             "console-lazy-nested-value"
             (EvalObject (Some "Object") "object"
                         {| reference := 5; getValue := "" |})
             (Some 70%positive) SimpleValueComponentType true
             (VObj 3%positive)]).
Proof. vm_compute. reflexivity. Qed.

(** C9: when the data has type "objects" but no objects sequence, the
    nested-value rendering throws from [nullthrows] (before touching
    anything); when every data of type "objects" has its sequence, it
    returns an element. *)
Theorem objects_missing_throws this provider w :
  (forall d, data (rec_of this) = Some d ->
             data_type d = Some "objects" ->
             objects d = None ->
             _renderNestedValueComponent this provider w
             = (Throw NullThrows, w)) /\
  ((forall d, data (rec_of this) = Some d ->
              data_type d = Some "objects" ->
              is_Some (objects d)) ->
   exists el w', _renderNestedValueComponent this provider w = (Ok el, w')).
Proof.
  split.
  - intros d Hd Ht Ho. unfold _renderNestedValueComponent.
    rewrite Hd, Ht, Ho. reflexivity.
  - intros Hpre. unfold _renderNestedValueComponent.
    destruct (data (rec_of this)) as [d|] eqn:Hd.
    + destruct (str_is (data_type d) "objects") eqn:Ht.
      * assert (data_type d = Some "objects") as Ht'.
        { destruct (data_type d) as [t|]; [|discriminate].
          cbn in Ht. apply String.eqb_eq in Ht. congruence. }
        destruct (Hpre d eq_refl Ht') as [objs Hobjs]. rewrite Hobjs.
        destruct (renderObjects_runs
                    (match provider with
                     | None => None
                     | Some p => getProperties p
                     end)
                    (expansionStateId (props this)) objs 0 [] w)
          as (children & w' & Hrun & _).
        eexists _, w'. unfold bind at 1. cbn [nullthrows ret].
        unfold bind. rewrite Hrun. reflexivity.
      * eexists _, w. reflexivity.
    + eexists _, w. reflexivity.
Qed.

Lemma objects_missing_throws_witness :
  _renderNestedValueComponent (Examples.mounted Examples.brokenLog) None
                              (Examples.world Examples.emptyState 0)
  = (Throw NullThrows, Examples.world Examples.emptyState 0).
Proof.
  apply (proj1 (objects_missing_throws (Examples.mounted Examples.brokenLog)
                  None (Examples.world Examples.emptyState 0))
           Examples.noObjects); reflexivity.
Defined.

(** The same failure seen from [_renderContent]: it is reached for every
    kind but "request", which never looks at the data. *)
Lemma renderContent_objects_missing parseText this w d :
  kind (rec_of this) <> "request" ->
  data (rec_of this) = Some d ->
  data_type d = Some "objects" ->
  objects d = None ->
  _renderContent parseText this w = (Throw NullThrows, w).
Proof.
  intros Hk Hd Ht Ho. unfold _renderContent.
  rewrite (eqb_lit_false _ _ Hk).
  destruct (String.eqb (kind (rec_of this)) "response");
    [|rewrite Hd];
    unfold _renderNestedValueComponent; rewrite Hd, Ht, Ho; reflexivity.
Qed.

(** *** The shared expansion-state object *)

Section ExpansionState.

Variable parseText : string -> list node.

Lemma renderNested_extends this provider w :
  extends (expansionStateId (props this)) (heap w)
          (heap (snd (_renderNestedValueComponent this provider w))).
Proof.
  unfold _renderNestedValueComponent.
  destruct (str_is _ "objects"); [|apply extends_refl].
  destruct (match data (rec_of this) with
            | Some d => objects d
            | None => None
            end) as [objs|]; [|apply extends_refl].
  unfold bind. cbn [nullthrows ret].
  match goal with
  | |- context [renderObjects ?gp ?esid 0%nat objs [] w] =>
    destruct (renderObjects_runs gp esid objs 0 [] w)
      as (children & w' & Hrun & _ & Hext & _)
  end.
  rewrite Hrun. exact Hext.
Qed.

Lemma renderContent_extends this w :
  extends (expansionStateId (props this)) (heap w)
          (heap (snd (_renderContent parseText this w))).
Proof.
  unfold _renderContent.
  destruct (String.eqb _ "request"); [apply extends_refl|].
  destruct (String.eqb _ "response"); [apply renderNested_extends|].
  destruct (data (rec_of this)); [apply renderNested_extends|].
  destruct (str_is _ "ansi"); apply extends_refl.
Qed.

(** C4 (as amended): whatever the record and the heap, [render] changes
    the heap only by initialising child slots of the expansion-state
    object that are missing or hold a falsy value, each to a fresh empty
    object.  The expansion-state object stays where it is, none of its
    entries is deleted, no entry holding a truthy value is replaced, and
    every other object of the heap is left as it was. *)
Theorem render_only_initialises_child_slots this w :
  extends (expansionStateId (props this)) (heap w)
          (heap (snd (render parseText this w))).
Proof.
  unfold render, bind.
  assert (forall ts, exists n, renderTimestamp ts w = (Ok n, w)) as Hts.
  { intros [t|]; eexists; reflexivity. }
  destruct (Hts (timestamp (rec_of this))) as [n Hn].
  rewrite Hn.
  pose proof (renderContent_extends this w) as Hext.
  destruct (_renderContent parseText this w) as [[c|e] w1]; exact Hext.
Qed.

End ExpansionState.

(** A heap whose expansion-state object already has entries: a truthy
    slot for child 0, and an unrelated key. *)
Lemma render_only_initialises_child_slots_witness :
  let h : JS.heap :=
    {[ 1%positive := {[ "child0" := VObj 7%positive; "note" := VNum 3 ]};
       7%positive := {[ "expanded" := VBool true ]} ]} in
  extends 1%positive h
    (heap (snd (render Examples.parse (Examples.mounted Examples.objectsLog)
                       (Examples.world h 0)))).
Proof.
  intros h.
  exact (render_only_initialises_child_slots Examples.parse
           (Examples.mounted Examples.objectsLog) (Examples.world h 0)).
Defined.

(** C4 does not hold as stated: an entry that exists but holds a falsy
    value (here [null]) is replaced by a fresh object. *)
Lemma falsy_entry_is_replaced :
  ~ (forall parseText this w o k v,
       heap w !! expansionStateId (props this) = Some o ->
       o !! k = Some v ->
       exists o',
         heap (snd (render parseText this w)) !! expansionStateId (props this)
         = Some o' /\
         o' !! k = Some v).
Proof.
  intros H.
  destruct (H Examples.parse (Examples.mounted Examples.oneObjectLog)
              (Examples.world {[ 1%positive := {[ "child0" := VNull ]} ]} 0)
              {[ "child0" := VNull ]} "child0" VNull)
    as (o' & Ho' & Hk).
  - reflexivity.
  - reflexivity.
  - vm_compute in Ho'. inversion Ho'; subst o'.
    vm_compute in Hk. discriminate Hk.
Qed.

Example falsy_entry_after_render :
  JS.get
    (heap (snd (render Examples.parse (Examples.mounted Examples.oneObjectLog)
                       (Examples.world {[ 1%positive := {[ "child0" := VNull ]} ]} 0))))
    1%positive "child0"
  = VObj 2%positive.
Proof. vm_compute. reflexivity. Qed.

(** Rendering the content reports no height. *)
Lemma renderContent_frame parseText this w :
  heightChanges (snd (_renderContent parseText this w)) = heightChanges w.
Proof.
  assert (forall provider,
            heightChanges (snd (_renderNestedValueComponent this provider w))
            = heightChanges w) as Hnested.
  { intros provider. unfold _renderNestedValueComponent.
    destruct (str_is _ "objects"); [|reflexivity].
    destruct (match data (rec_of this) with
              | Some d => objects d
              | None => None
              end) as [objs|]; [|reflexivity].
    unfold bind. cbn [nullthrows ret].
    match goal with
    | |- context [renderObjects ?gp ?esid 0%nat objs [] w] =>
      destruct (renderObjects_runs gp esid objs 0 [] w)
        as (children & w' & Hrun & _ & _ & _ & _ & Hh)
    end.
    rewrite Hrun. exact Hh. }
  unfold _renderContent.
  destruct (String.eqb _ "request"); [reflexivity|].
  destruct (String.eqb _ "response"); [apply Hnested|].
  destruct (data (rec_of this)); [apply Hnested|].
  destruct (str_is _ "ansi"); reflexivity.
Qed.

Lemma render_frame parseText this w :
  heightChanges (snd (render parseText this w)) = heightChanges w.
Proof.
  unfold render, bind.
  assert (exists n, renderTimestamp (timestamp (rec_of this)) w = (Ok n, w))
    as [n Hn].
  { destruct (timestamp _); eexists; reflexivity. }
  rewrite Hn.
  pose proof (renderContent_frame parseText this w) as Hframe.
  destruct (_renderContent parseText this w) as [[c|e] w1]; exact Hframe.
Qed.

(** *** Height reporting *)

(** C10: [measureAndNotifyHeight] does nothing while the wrapper element
    is not attached, and so do its three callers (mount, update with a new
    record, the debounce timer); when it does call [onHeightChange], it is
    exactly once, with the current record and the wrapper's
    [offsetHeight]. *)
Theorem measure_only_with_wrapper this w :
  (_wrapper this = None ->
   measureAndNotifyHeight this w = w /\
   componentDidMount this w = w /\
   (forall prevProps, componentDidUpdate this prevProps w = w) /\
   snd (runTimers this w) = w) /\
  (forall el, _wrapper this = Some el ->
     heightChanges (measureAndNotifyHeight this w)
     = heightChanges w ++ [heightReport this w el]) /\
  (forall w',
     w' = measureAndNotifyHeight this w \/
     w' = componentDidMount this w \/
     (exists prevProps, w' = componentDidUpdate this prevProps w) \/
     w' = snd (runTimers this w) ->
     heap w' = heap w /\
     (heightChanges w' = heightChanges w \/
      exists el, _wrapper this = Some el /\
                 heightChanges w'
                 = heightChanges w ++
                   [(onHeightChange (props this), record (props this),
                     layout w el)])).
Proof.
  assert (forall w0, w0 = measureAndNotifyHeight this w ->
            heap w0 = heap w /\
            (heightChanges w0 = heightChanges w \/
             exists el, _wrapper this = Some el /\
                        heightChanges w0
                        = heightChanges w ++
                          [(onHeightChange (props this), record (props this),
                            layout w el)])) as Hm.
  { intros w0 ->. unfold measureAndNotifyHeight.
    destruct (_wrapper this) as [el|]; [|auto].
    split; [reflexivity|]. right. exists el. split; reflexivity. }
  split; [|split].
  - intros Hw.
    assert (measureAndNotifyHeight this w = w) as Hnone.
    { unfold measureAndNotifyHeight. rewrite Hw. reflexivity. }
    split; [exact Hnone|]. split; [exact Hnone|]. split.
    + intros prevProps. unfold componentDidUpdate.
      destruct (negb _); [exact Hnone|reflexivity].
    + unfold runTimers. destruct (Debounce.tick _ _) as [[|] d];
        [exact Hnone|reflexivity].
  - intros el Hw. unfold measureAndNotifyHeight. rewrite Hw. reflexivity.
  - intros w' [-> | [-> | [[prevProps ->] | ->]]].
    + apply Hm. reflexivity.
    + apply Hm. reflexivity.
    + unfold componentDidUpdate. destruct (negb _); [apply Hm|]; auto.
    + unfold runTimers. destruct (Debounce.tick _ _) as [[|] d];
        [apply Hm|]; auto.
Qed.

Lemma measure_only_with_wrapper_witness :
  measureAndNotifyHeight (constructor (Examples.mkProps 100%positive Examples.ansiLog))
                         (Examples.world Examples.emptyState 0)
  = Examples.world Examples.emptyState 0.
Proof.
  apply (proj1 (measure_only_with_wrapper
                  (constructor (Examples.mkProps 100%positive Examples.ansiLog))
                  (Examples.world Examples.emptyState 0))).
  reflexivity.
Defined.

Example measure_with_wrapper :
  heightChanges
    (measureAndNotifyHeight (Examples.mounted Examples.ansiLog)
                            (Examples.world Examples.emptyState 0))
  = [(60%positive, Ref 100%positive Examples.ansiLog, 17)].
Proof. reflexivity. Qed.

(** *** Skipping renders *)

Lemma same_refl {A} (a : ref A) : same a a = true.
Proof. unfold same. apply bool_decide_eq_true. reflexivity. Qed.

Lemma shallowEqual_refl p : shallowEqual p p = true.
Proof.
  unfold shallowEqual. rewrite !same_refl, Bool.eqb_reflx.
  rewrite !bool_decide_eq_true_2 by reflexivity. reflexivity.
Qed.

(** [shallowEqual] holds exactly when each of the six props agrees:
    objects and functions by identity, the boolean by value. *)
Lemma shallowEqual_spec a b :
  shallowEqual a b = true <->
  ref_id (record a) = ref_id (record b) /\
  showSourceLabel a = showSourceLabel b /\
  ref_id (getExecutor a) = ref_id (getExecutor b) /\
  ref_id (getProvider a) = ref_id (getProvider b) /\
  onHeightChange a = onHeightChange b /\
  expansionStateId a = expansionStateId b.
Proof.
  unfold shallowEqual, same.
  rewrite !Bool.andb_true_iff, !bool_decide_eq_true, Bool.eqb_true_iff.
  tauto.
Qed.

Section Update.

Variable parseText : string -> list node.

(** C3: when every prop of the next props agrees with the current one
    (by identity for objects and functions, by value for the boolean),
    [shouldComponentUpdate] answers false, so the update runs neither
    [render] nor [componentDidUpdate] and leaves the world, in particular
    the log of height reports, as it was; the same holds when these
    props are given once more. *)
Theorem shallow_equal_props_skip_render this nextProps w :
  ref_id (record (props this)) = ref_id (record nextProps) ->
  showSourceLabel (props this) = showSourceLabel nextProps ->
  ref_id (getExecutor (props this)) = ref_id (getExecutor nextProps) ->
  ref_id (getProvider (props this)) = ref_id (getProvider nextProps) ->
  onHeightChange (props this) = onHeightChange nextProps ->
  expansionStateId (props this) = expansionStateId nextProps ->
  shouldComponentUpdate this nextProps = false /\
  update parseText nextProps this w = (Ok (set_props nextProps this), w) /\
  update parseText nextProps (set_props nextProps this) w
  = (Ok (set_props nextProps this), w).
Proof.
  intros H1 H2 H3 H4 H5 H6.
  assert (shallowEqual (props this) nextProps = true) as Heq.
  { apply shallowEqual_spec. auto 6. }
  unfold update, shouldComponentUpdate. rewrite Heq. cbn.
  rewrite shallowEqual_refl. cbn. auto.
Qed.

(** X12: an update that does re-render (some other prop changed) still
    reports no height as long as the record is the same object. *)
Lemma update_same_record_no_report this nextProps w this' w' :
  ref_id (record (props this)) = ref_id (record nextProps) ->
  update parseText nextProps this w = (Ok this', w') ->
  heightChanges w' = heightChanges w.
Proof.
  intros Hrec. unfold update.
  destruct (shouldComponentUpdate this nextProps).
  - unfold bind.
    pose proof (render_frame parseText (set_props nextProps this) w) as Hframe.
    destruct (render parseText (set_props nextProps this) w)
      as [[c|e] w1]; [|discriminate].
    intros H. inversion H; subst. unfold componentDidUpdate.
    cbn [props set_props]. unfold same.
    rewrite bool_decide_eq_true_2 by congruence. cbn. exact Hframe.
  - intros H. inversion H. reflexivity.
Qed.

End Update.

Lemma shallow_equal_props_skip_render_witness :
  update Examples.parse (Examples.mkProps 100%positive Examples.objectsLog)
         (Examples.mounted Examples.objectsLog)
         (Examples.world Examples.emptyState 0)
  = (Ok (Examples.mounted Examples.objectsLog),
     Examples.world Examples.emptyState 0).
Proof.
  apply (shallow_equal_props_skip_render Examples.parse
           (Examples.mounted Examples.objectsLog)
           (Examples.mkProps 100%positive Examples.objectsLog)
           (Examples.world Examples.emptyState 0));
    reflexivity.
Defined.

(** Mounting reports the height once; giving the same props twice more
    adds nothing to the log. *)
Example mount_then_same_props_twice :
  let p := Examples.mkProps 100%positive Examples.ansiLog in
  let run :=
    this <- mount Examples.parse p 9%positive ;;
    this <- update Examples.parse p this ;;
    update Examples.parse p this in
  heightChanges (snd (run (Examples.world Examples.emptyState 0)))
  = [(60%positive, Ref 100%positive Examples.ansiLog, 17)].
Proof. reflexivity. Qed.

(** A new record object, even with the same contents, is reported again. *)
Example update_with_new_record_object :
  let run :=
    this <- mount Examples.parse
                  (Examples.mkProps 100%positive Examples.ansiLog) 9%positive ;;
    update Examples.parse (Examples.mkProps 101%positive Examples.ansiLog) this in
  heightChanges (snd (run (Examples.world Examples.emptyState 0)))
  = [(60%positive, Ref 100%positive Examples.ansiLog, 17);
     (60%positive, Ref 101%positive Examples.ansiLog, 17)].
Proof. reflexivity. Qed.

(** *** Teardown *)

Lemma tick_idle now d :
  Debounce.pending d = None -> Debounce.tick now d = (false, d).
Proof. unfold Debounce.tick. intros ->. reflexivity. Qed.

Lemma elapseAll_idle dts : forall this w,
  Debounce.pending (_debouncedMeasureAndNotifyHeight this) = None ->
  fst (fst (elapseAll dts this w)) = O /\
  heightChanges (snd (elapseAll dts this w)) = heightChanges w /\
  heap (snd (elapseAll dts this w)) = heap w.
Proof.
  induction dts as [|dt rest IH]; intros this w Hidle; [cbn; auto|].
  cbn [elapseAll]. unfold elapse, runTimers.
  rewrite (tick_idle _ _ Hidle).
  destruct this as [p wr d]. cbn in Hidle |- *.
  specialize (IH {| props := p; _wrapper := wr;
                    _debouncedMeasureAndNotifyHeight := d |}
                 (with_clock (clock w + dt) w) Hidle).
  unfold set_debounced. cbn [props _wrapper].
  destruct (elapseAll rest _ _) as [[n this''] w''].
  exact IH.
Qed.

(** C6: once [componentWillUnmount] has run, no timer of the debounced
    method is pending, so however much time passes afterwards the timer
    never calls [measureAndNotifyHeight] and no height is reported, also
    when the measurement signal had fired just before the unmount. *)
Theorem no_measure_after_unmount this w dts :
  Debounce.pending (_debouncedMeasureAndNotifyHeight (unmount this)) = None /\
  fst (fst (elapseAll dts (unmount this) w)) = O /\
  heightChanges (snd (elapseAll dts (unmount this) w)) = heightChanges w /\
  fst (fst (elapseAll dts (unmount (measurementsChanged this w)) w)) = O /\
  heightChanges (snd (elapseAll dts (unmount (measurementsChanged this w)) w))
  = heightChanges w.
Proof.
  split; [reflexivity|].
  destruct (elapseAll_idle dts (unmount this) w eq_refl) as (H1 & H2 & _).
  destruct (elapseAll_idle dts (unmount (measurementsChanged this w)) w eq_refl)
    as (H3 & H4 & _).
  auto.
Qed.

(** Without the unmount, the pending timer does fire and report. *)
Example signal_then_wait_reports :
  let w := Examples.world Examples.emptyState 0 in
  let this := measurementsChanged (Examples.mounted Examples.ansiLog) w in
  (fst (fst (elapseAll [4; 6] this w)),
   heightChanges (snd (elapseAll [4; 6] this w)))
  = (1%nat, [(60%positive, Ref 100%positive Examples.ansiLog, 17)]).
Proof. reflexivity. Qed.

Example signal_unmount_then_wait :
  let w := Examples.world Examples.emptyState 0 in
  let this := unmount (measurementsChanged (Examples.mounted Examples.ansiLog) w) in
  (fst (fst (elapseAll [4; 6] this w)),
   heightChanges (snd (elapseAll [4; 6] this w)))
  = (O, []).
Proof. reflexivity. Qed.

(** ** Further properties of the component *)

(** *** The frame built by [render] *)

Lemma renderTimestamp_runs ts w :
  exists n, renderTimestamp ts w = (Ok n, w).
Proof. destruct ts; eexists; reflexivity. Qed.

(** [render] fails or succeeds with [_renderContent], in the same world. *)
Lemma render_outcome parseText this w :
  match _renderContent parseText this w with
  | (Ok c, w') => exists el, render parseText this w = (Ok el, w') /\
                             contentChild el = Some c
  | (Throw e, w') => render parseText this w = (Throw e, w')
  end.
Proof.
  unfold render, bind.
  destruct (renderTimestamp_runs (timestamp (rec_of this)) w) as [n Hn].
  rewrite Hn.
  destruct (_renderContent parseText this w) as [[c|e] w1]; [|reflexivity].
  eexists; split; reflexivity.
Qed.

Lemma render_shape parseText this w el w' :
  render parseText this w = (Ok el, w') ->
  rootClassName el
  = Some (classnames
            [("console-record", true);
             ("level-" +:+ str_or (level (rec_of this)) "log", true);
             ("request", String.eqb (kind (rec_of this)) "request");
             ("response", String.eqb (kind (rec_of this)) "response")]) /\
  iconChild el
  = Some (match getIconName (rec_of this) with
          | Some n => if String.eqb n "" then Nothing
                      else Span None None ("icon icon-" +:+ n) []
          | None => Nothing
          end) /\
  badgeChild el
  = Some (if 1 <? repeatCount (rec_of this)
          then Div false "console-record-duplicate-number"
                   [Number (repeatCount (rec_of this))]
          else Nothing) /\
  sourceLabelChild el
  = Some (if showSourceLabel (props this)
          then Span None None
                    ("console-record-source-label "
                       +:+ getHighlightClassName (level (rec_of this)))
                    [Text (default (sourceId (rec_of this))
                                   (sourceName (rec_of this)))]
          else Nothing) /\
  progressChild el = Some (FullWidthProgressBar (incomplete (rec_of this))).
Proof.
  unfold render, bind.
  destruct (renderTimestamp_runs (timestamp (rec_of this)) w) as [n Hn].
  rewrite Hn.
  destruct (_renderContent parseText this w) as [[c|e] w1]; [|discriminate].
  intros H. inversion H; subst. repeat split; reflexivity.
Qed.

(** *** When rendering fails *)

(** The nested rendering has two outcomes: it throws at once when the
    data says "objects" and has no sequence, and returns otherwise. *)
Lemma renderNested_outcome this provider w :
  (exists d, data (rec_of this) = Some d /\ data_type d = Some "objects" /\
             objects d = None) /\
  _renderNestedValueComponent this provider w = (Throw NullThrows, w)
  \/
  ~ (exists d, data (rec_of this) = Some d /\ data_type d = Some "objects" /\
               objects d = None) /\
  exists el w', _renderNestedValueComponent this provider w = (Ok el, w').
Proof.
  unfold _renderNestedValueComponent.
  destruct (data (rec_of this)) as [d|] eqn:Hd.
  - destruct (str_is (data_type d) "objects") eqn:Ht.
    + assert (data_type d = Some "objects") as Ht'.
      { destruct (data_type d) as [t|]; [|discriminate].
        cbn in Ht. apply String.eqb_eq in Ht. congruence. }
      destruct (objects d) as [objs|] eqn:Ho.
      * right. split.
        { intros (d' & Hd' & _ & Ho'). congruence. }
        unfold bind. cbn [nullthrows ret].
        match goal with
        | |- context [renderObjects ?gp ?esid 0%nat objs [] w] =>
          destruct (renderObjects_runs gp esid objs 0 [] w)
            as (children & w' & Hrun & _)
        end.
        rewrite Hrun. eauto.
      * left. split; [|reflexivity]. exists d. auto.
    + right. split; [|eauto].
      intros (d' & Hd' & Ht' & _). inversion Hd'; subst d'.
      rewrite Ht' in Ht. discriminate Ht.
  - right. split; [|eauto]. intros (d' & Hd' & _). discriminate.
Qed.

(** X1: [render] throws exactly for the records that are not requests and
    whose data has type "objects" without an objects sequence; the error is
    the one of [nullthrows] and the world is left as it was.  For every
    other record [render] returns an element. *)
Theorem render_throws_exactly parseText this w :
  (objectsMissing (rec_of this) ->
   render parseText this w = (Throw NullThrows, w)) /\
  (~ objectsMissing (rec_of this) ->
   exists el w', render parseText this w = (Ok el, w')).
Proof.
  pose proof (render_outcome parseText this w) as Hout.
  unfold objectsMissing, _renderContent in *.
  destruct (String.eqb (kind (rec_of this)) "request") eqn:Hreq.
  - apply String.eqb_eq in Hreq. split.
    + intros [Hk _]. contradiction.
    + intros _. cbn in Hout. destruct Hout as (el & Hel & _). eauto.
  - apply String.eqb_neq in Hreq.
    assert (forall provider,
              match _renderNestedValueComponent this provider w with
              | (Ok c, w') =>
                exists el, render parseText this w = (Ok el, w') /\
                           contentChild el = Some c
              | (Throw e, w') => render parseText this w = (Throw e, w')
              end ->
              ((kind (rec_of this) <> "request" /\
                exists d, data (rec_of this) = Some d /\
                          data_type d = Some "objects" /\ objects d = None) ->
               render parseText this w = (Throw NullThrows, w)) /\
              (~ (kind (rec_of this) <> "request" /\
                  exists d, data (rec_of this) = Some d /\
                            data_type d = Some "objects" /\ objects d = None) ->
               exists el w', render parseText this w = (Ok el, w')))
      as Hnested.
    { intros provider Hp.
      destruct (renderNested_outcome this provider w)
        as [[Hmiss Hthrow] | [Hok (c & w' & Hrun)]].
      - rewrite Hthrow in Hp. split; [auto|]. intros Hn. exfalso. auto.
      - rewrite Hrun in Hp. destruct Hp as (el & Hel & _). split.
        + intros [_ Hmiss]. contradiction.
        + eauto. }
    destruct (String.eqb (kind (rec_of this)) "response").
    + eapply Hnested, Hout.
    + destruct (data (rec_of this)) as [d|] eqn:Hd.
      * eapply Hnested. exact Hout.
      * split.
        -- intros [_ (d' & Hd' & _)]. discriminate.
        -- intros _.
           destruct (str_is (format (rec_of this)) "ansi");
             cbn in Hout; destruct Hout as (el & Hel & _); eauto.
Qed.

Lemma render_throws_exactly_witness :
  render Examples.parse (Examples.mounted Examples.brokenLog)
         (Examples.world Examples.emptyState 0)
  = (Throw NullThrows, Examples.world Examples.emptyState 0).
Proof.
  apply (proj1 (render_throws_exactly Examples.parse
                  (Examples.mounted Examples.brokenLog)
                  (Examples.world Examples.emptyState 0))).
  split; [discriminate|].
  exists Examples.noObjects. repeat split; reflexivity.
Defined.

(** *** More on the loop and the expansion state *)

Lemma ensureSlot_noop esid k w :
  truthy (JS.get (heap w) esid k) = true -> ensureSlot esid k w = w.
Proof. unfold ensureSlot. intros ->. reflexivity. Qed.

(** The loop over a sequence [xs ++ ys] is the loop over [xs] followed by
    the loop over [ys], started at the index after [xs] with the children
    and the world that [xs] left. *)
Lemma renderObjects_app gp esid xs ys : forall i acc w,
  renderObjects gp esid i (xs ++ ys) acc w =
  match renderObjects gp esid i xs acc w with
  | (Ok acc', w1) => renderObjects gp esid (i + length xs) ys acc' w1
  | (Throw e, w1) => (Throw e, w1)
  end.
Proof.
  induction xs as [|x xs IH]; intros i acc w.
  - cbn. rewrite Nat.add_0_r. reflexivity.
  - cbn [app length]. rewrite !renderObjects_cons. cbv zeta.
    rewrite IH. replace (S i + length xs)%nat with (i + S (length xs))%nat by lia.
    reflexivity.
Qed.

(** Only the keys of the indices the loop visits can change. *)
Lemma renderObjects_other_keys gp esid objs : forall i acc w children w' k,
  is_Some (heap w !! esid) ->
  renderObjects gp esid i objs acc w = (Ok children, w') ->
  (forall j, (i <= j < i + length objs)%nat -> k <> childKey j) ->
  JS.get (heap w') esid k = JS.get (heap w) esid k.
Proof.
  induction objs as [|o rest IH]; intros i acc w children w' k Hesid Hrun Hk.
  - cbn in Hrun. inversion Hrun; subst. reflexivity.
  - rewrite renderObjects_cons in Hrun. cbv zeta in Hrun.
    cbn [length] in Hk.
    rewrite (IH _ _ _ _ _ k
                (extends_lookup_mono _ _ _ _ (ensureSlot_extends esid i w) Hesid)
                Hrun).
    + apply ensureSlot_get_other; [exact Hesid|]. apply Hk. lia.
    + intros j Hj. apply Hk. lia.
Qed.

(** A slot that was falsy holds, after the loop, a reference to an object
    that did not exist before and is empty. *)
Lemma renderObjects_fresh gp esid objs i acc w children w' j o :
  is_Some (heap w !! esid) ->
  renderObjects gp esid i objs acc w = (Ok children, w') ->
  objs !! j = Some o ->
  truthy (JS.get (heap w) esid (childKey (i + j))) = false ->
  exists l, JS.get (heap w') esid (childKey (i + j)) = VObj l /\
            heap w !! l = None /\ heap w' !! l = Some ∅.
Proof.
  intros Hesid Hrun Hj Hfalsy.
  destruct (renderObjects_runs gp esid objs i acc w)
    as (ch & w2 & Hrun2 & _ & Hext & _).
  rewrite Hrun in Hrun2. inversion Hrun2; subst children w2. clear Hrun2.
  destruct (renderObjects_slots gp esid objs i acc w ch w' Hesid Hrun)
    as (_ & _ & Hch).
  destruct (Hch j o Hj) as [Htruthy _].
  destruct Hesid as [o0 Ho0].
  destruct Hext as [_ Hext]. destruct (Hext o0 Ho0) as (o' & Ho' & _ & _ & Hnew).
  unfold JS.get in *. rewrite Ho0 in Hfalsy. rewrite Ho' in Htruthy |- *.
  destruct (o' !! childKey (i + j)) as [v'|] eqn:Hv'; [|discriminate].
  cbn in Htruthy |- *.
  destruct (Hnew _ _ Hv') as [Hold | (i0 & l & _ & _ & -> & Hl & Hl')].
  - rewrite Hold in Hfalsy. cbn in Hfalsy. congruence.
  - exists l. auto.
Qed.

(** With every visited slot truthy already, the loop changes nothing. *)
Lemma renderObjects_noop gp esid objs : forall i acc w,
  (forall j, (j < length objs)%nat ->
             truthy (JS.get (heap w) esid (childKey (i + j))) = true) ->
  exists children, renderObjects gp esid i objs acc w = (Ok (acc ++ children), w).
Proof.
  induction objs as [|o rest IH]; intros i acc w Hall.
  - exists []. rewrite app_nil_r. reflexivity.
  - rewrite renderObjects_cons. cbv zeta.
    rewrite ensureSlot_noop.
    2:{ specialize (Hall O). rewrite Nat.add_0_r in Hall. apply Hall.
        cbn. lia. }
    destruct (IH (S i)
                 (acc ++ [renderedObject gp (JS.get (heap w) esid (childKey i)) o])
                 w) as [ch Hch].
    { intros j Hj. replace (S i + j)%nat with (i + S j)%nat by lia.
      apply Hall. cbn. lia. }
    rewrite Hch, <- app_assoc. eexists. reflexivity.
Qed.

(** Unfolding of the "objects" branch of the nested rendering. *)
Lemma renderNested_objects this provider w d objs :
  data (rec_of this) = Some d ->
  data_type d = Some "objects" ->
  objects d = Some objs ->
  _renderNestedValueComponent this provider w =
  match renderObjects
          (match provider with None => None | Some p => getProperties p end)
          (expansionStateId (props this)) 0 objs [] w with
  | (Ok children, w') =>
    (Ok (Span None None "console-multiple-objects" children), w')
  | (Throw e, w') => (Throw e, w')
  end.
Proof.
  intros Hd Ht Ho. unfold _renderNestedValueComponent.
  rewrite Hd, Ht, Ho. reflexivity.
Qed.

(** X2: when a second record carries the objects of a first one followed
    by more, the nested rendering of the second, from the same world and
    with the same expansion-state object, starts with exactly the children
    rendered for the first: the earlier objects keep their children and
    their slots. *)
Theorem objects_prefix_stable this this' provider w d d' xs ys :
  data (rec_of this) = Some d -> data_type d = Some "objects" ->
  objects d = Some xs ->
  data (rec_of this') = Some d' -> data_type d' = Some "objects" ->
  objects d' = Some (xs ++ ys) ->
  expansionStateId (props this') = expansionStateId (props this) ->
  exists ch ch' w1 w2,
    _renderNestedValueComponent this provider w
    = (Ok (Span None None "console-multiple-objects" ch), w1) /\
    _renderNestedValueComponent this' provider w
    = (Ok (Span None None "console-multiple-objects" (ch ++ ch')), w2) /\
    length ch = length xs /\ length ch' = length ys /\
    extends (expansionStateId (props this)) (heap w1) (heap w2).
Proof.
  intros Hd Ht Ho Hd' Ht' Ho' Hesid.
  rewrite (renderNested_objects this provider w d xs Hd Ht Ho).
  rewrite (renderNested_objects this' provider w d' (xs ++ ys) Hd' Ht' Ho').
  rewrite Hesid, renderObjects_app.
  set (gp := match provider with None => None | Some p => getProperties p end).
  set (esid := expansionStateId (props this)).
  destruct (renderObjects_runs gp esid xs 0 [] w)
    as (ch & w1 & Hrun1 & Hlen1 & _).
  rewrite Hrun1. cbn [app].
  destruct (renderObjects_runs gp esid ys (0 + length xs) ch w1)
    as (ch' & w2 & Hrun2 & Hlen2 & Hext & _).
  rewrite Hrun2. exists ch, ch', w1, w2. auto.
Qed.

Lemma objects_prefix_stable_witness :
  exists ch ch' w1 w2,
    _renderNestedValueComponent (Examples.mounted Examples.oneObjectLog) None
                                (Examples.world Examples.emptyState 0)
    = (Ok (Span None None "console-multiple-objects" ch), w1) /\
    _renderNestedValueComponent (Examples.mounted Examples.handleThenPrimitive)
                                None (Examples.world Examples.emptyState 0)
    = (Ok (Span None None "console-multiple-objects" (ch ++ ch')), w2) /\
    length ch = 1%nat /\ length ch' = 1%nat.
Proof.
  destruct (objects_prefix_stable
              (Examples.mounted Examples.oneObjectLog)
              (Examples.mounted Examples.handleThenPrimitive)
              None (Examples.world Examples.emptyState 0)
              {| data_type := Some "objects"; objects := Some [Examples.handle];
                 data_description := None; data_value := None |}
              {| data_type := Some "objects";
                 objects := Some ([Examples.handle] ++ [Examples.primitive]);
                 data_description := None; data_value := None |}
              [Examples.handle] [Examples.primitive]
              eq_refl eq_refl eq_refl eq_refl eq_refl eq_refl eq_refl)
    as (ch & ch' & w1 & w2 & H1 & H2 & L1 & L2 & _).
  exists ch, ch', w1, w2. auto.
Defined.

(** Once the loop has run, running it again changes nothing: every slot
    it visits is truthy by then. *)
Lemma renderObjects_settled gp esid objs w ch w1 :
  is_Some (heap w !! esid) ->
  renderObjects gp esid 0 objs [] w = (Ok ch, w1) ->
  snd (renderObjects gp esid 0 objs [] w1) = w1.
Proof.
  intros Hesid Hrun.
  destruct (renderObjects_slots gp esid objs 0 [] w ch w1 Hesid Hrun)
    as (_ & _ & Hch).
  destruct (renderObjects_noop gp esid objs 0 [] w1) as [ch2 Hrun2].
  { intros j Hj. destruct (lookup_lt_is_Some_2 objs j Hj) as [o Ho].
    apply (Hch j o Ho). }
  rewrite Hrun2. reflexivity.
Qed.

Lemma renderNested_frame this provider w :
  clock (snd (_renderNestedValueComponent this provider w)) = clock w /\
  layout (snd (_renderNestedValueComponent this provider w)) = layout w.
Proof.
  unfold _renderNestedValueComponent.
  destruct (str_is _ "objects"); [|auto].
  destruct (match data (rec_of this) with
            | Some d => objects d
            | None => None
            end) as [objs|]; [|auto].
  unfold bind. cbn [nullthrows ret].
  match goal with
  | |- context [renderObjects ?gp ?esid 0%nat objs [] w] =>
    destruct (renderObjects_runs gp esid objs 0 [] w)
      as (children & w' & Hrun & _ & _ & Hc & Hl & _)
  end.
  rewrite Hrun. auto.
Qed.

Lemma renderNested_settled this provider w :
  is_Some (heap w !! expansionStateId (props this)) ->
  snd (_renderNestedValueComponent this provider
         (snd (_renderNestedValueComponent this provider w)))
  = snd (_renderNestedValueComponent this provider w).
Proof.
  intros Hesid. unfold _renderNestedValueComponent.
  destruct (str_is _ "objects"); [|reflexivity].
  destruct (match data (rec_of this) with
            | Some d => objects d
            | None => None
            end) as [objs|]; [|reflexivity].
  unfold bind. cbn [nullthrows ret].
  match goal with
  | |- context [renderObjects ?gp ?esid 0%nat objs [] w] =>
    destruct (renderObjects_runs gp esid objs 0 [] w)
      as (ch & w1 & Hrun & _);
    pose proof (renderObjects_settled gp esid objs w ch w1 Hesid Hrun)
      as Hsettled
  end.
  cbn [app] in Hrun. rewrite Hrun. cbn [snd ret].
  match goal with
  | |- context [renderObjects ?gp ?esid 0%nat objs [] w1] =>
    destruct (renderObjects gp esid 0 objs [] w1) as [[ch2|e] w2]
  end; exact Hsettled.
Qed.

Section Rerender.

Variable parseText : string -> list node.

Lemma renderContent_settled this w :
  is_Some (heap w !! expansionStateId (props this)) ->
  snd (_renderContent parseText this (snd (_renderContent parseText this w)))
  = snd (_renderContent parseText this w).
Proof.
  intros Hesid. unfold _renderContent.
  destruct (String.eqb _ "request"); [reflexivity|].
  destruct (String.eqb _ "response"); [apply renderNested_settled, Hesid|].
  destruct (data (rec_of this)); [apply renderNested_settled, Hesid|].
  destruct (str_is _ "ansi"); reflexivity.
Qed.

(** The world [render] leaves is the one [_renderContent] leaves. *)
Lemma render_world this w :
  snd (render parseText this w) = snd (_renderContent parseText this w).
Proof.
  unfold render, bind.
  destruct (renderTimestamp_runs (timestamp (rec_of this)) w) as [n Hn].
  rewrite Hn.
  destruct (_renderContent parseText this w) as [[c|e] w1]; reflexivity.
Qed.

(** X3: rendering settles the world.  With the expansion-state object in
    the heap, a second [render] of the same instance, in the world the
    first one left, changes nothing any more: the heap, and with it every
    expansion-state slot, stays exactly as the first render left it. *)
Theorem rerender_changes_nothing this w :
  is_Some (heap w !! expansionStateId (props this)) ->
  snd (render parseText this (snd (render parseText this w)))
  = snd (render parseText this w).
Proof.
  intros Hesid. rewrite !render_world.
  apply renderContent_settled, Hesid.
Qed.

End Rerender.

(** The first render allocates the two slots, the second one none. *)
Lemma rerender_changes_nothing_witness :
  snd (render Examples.parse (Examples.mounted Examples.objectsLog)
              (snd (render Examples.parse (Examples.mounted Examples.objectsLog)
                           (Examples.world Examples.emptyState 0))))
  = snd (render Examples.parse (Examples.mounted Examples.objectsLog)
                (Examples.world Examples.emptyState 0)).
Proof.
  apply (rerender_changes_nothing Examples.parse
           (Examples.mounted Examples.objectsLog)
           (Examples.world Examples.emptyState 0)).
  exists ∅. reflexivity.
Defined.

Example first_render_allocates :
  size (heap (snd (render Examples.parse (Examples.mounted Examples.objectsLog)
                          (Examples.world Examples.emptyState 0))))
  = 3%nat.
Proof. vm_compute. reflexivity. Qed.

(** X4: for a record with a sequence of objects, the nested rendering
    leaves the world exactly as it was if and only if every slot "child0"
    .. "child{N-1}" of the expansion-state object already holds a truthy
    value; it never touches the heap for any other reason. *)
Theorem objects_world_unchanged_iff this provider w d objs :
  data (rec_of this) = Some d ->
  data_type d = Some "objects" ->
  objects d = Some objs ->
  is_Some (heap w !! expansionStateId (props this)) ->
  snd (_renderNestedValueComponent this provider w) = w <->
  forall i, (i < length objs)%nat ->
            truthy (JS.get (heap w) (expansionStateId (props this)) (childKey i))
            = true.
Proof.
  intros Hd Ht Ho Hesid.
  rewrite (renderNested_objects this provider w d objs Hd Ht Ho).
  set (gp := match provider with None => None | Some p => getProperties p end).
  set (esid := expansionStateId (props this)) in *.
  split.
  - intros Hsame i Hi.
    destruct (renderObjects_runs gp esid objs 0 [] w)
      as (ch & w' & Hrun & _).
    rewrite Hrun in Hsame. cbn in Hsame. subst w'.
    destruct (renderObjects_slots gp esid objs 0 [] w ch w Hesid Hrun)
      as (_ & _ & Hch).
    destruct (lookup_lt_is_Some_2 objs i Hi) as [o Hobj].
    apply (Hch i o Hobj).
  - intros Hall.
    destruct (renderObjects_noop gp esid objs 0 [] w Hall) as [ch Hrun].
    rewrite Hrun. reflexivity.
Qed.

Lemma objects_world_unchanged_iff_witness :
  snd (_renderNestedValueComponent
         (Examples.mounted Examples.oneObjectLog) None
         (Examples.world {[ 1%positive := {[ "child0" := VObj 7%positive ]} ]} 0))
  = Examples.world {[ 1%positive := {[ "child0" := VObj 7%positive ]} ]} 0.
Proof.
  apply (objects_world_unchanged_iff
           (Examples.mounted Examples.oneObjectLog) None
           (Examples.world {[ 1%positive := {[ "child0" := VObj 7%positive ]} ]} 0)
           {| data_type := Some "objects"; objects := Some [Examples.handle];
              data_description := None; data_value := None |}
           [Examples.handle] eq_refl eq_refl eq_refl).
  - eexists. reflexivity.
  - intros [|i] Hi; [reflexivity|]. cbn in Hi. lia.
Defined.

Lemma renderObjects_fresh_pair gp esid objs w ch w' i j oi oj :
  is_Some (heap w !! esid) ->
  renderObjects gp esid 0 objs [] w = (Ok ch, w') ->
  (i < j)%nat ->
  objs !! i = Some oi -> objs !! j = Some oj ->
  truthy (JS.get (heap w) esid (childKey i)) = false ->
  truthy (JS.get (heap w) esid (childKey j)) = false ->
  exists li lj,
    JS.get (heap w') esid (childKey i) = VObj li /\
    JS.get (heap w') esid (childKey j) = VObj lj /\
    li <> lj /\
    heap w !! li = None /\ heap w !! lj = None /\
    heap w' !! li = Some ∅ /\ heap w' !! lj = Some ∅.
Proof.
  intros Hesid Hrun Hij Hi Hj Hfi Hfj.
  rewrite <- (take_drop (S i) objs) in Hrun.
  rewrite renderObjects_app in Hrun.
  assert (length (take (S i) objs) = S i) as Hlen.
  { rewrite length_take. apply lookup_lt_Some in Hi. lia. }
  destruct (renderObjects_runs gp esid (take (S i) objs) 0 [] w)
    as (ch1 & w1 & Hrun1 & _ & Hext1 & _).
  rewrite Hrun1, Hlen in Hrun. cbn [app Nat.add] in Hrun, Hrun1.
  assert (is_Some (heap w1 !! esid)) as Hesid1
      by (eapply extends_lookup_mono; eauto).
  destruct (renderObjects_fresh gp esid (take (S i) objs) 0 [] w ch1 w1 i oi
              Hesid Hrun1) as (li & Hli & Hli0 & Hli1).
  { rewrite lookup_take_lt by lia. exact Hi. }
  { exact Hfi. }
  cbn [Nat.add] in Hli.
  assert (JS.get (heap w1) esid (childKey j) = JS.get (heap w) esid (childKey j))
    as Hj1.
  { eapply renderObjects_other_keys; [exact Hesid|exact Hrun1|].
    intros j' Hj' Heq. apply childKey_inj in Heq. lia. }
  destruct (renderObjects_fresh gp esid (drop (S i) objs) (S i) ch1 w1 ch w'
              (j - S i) oj Hesid1 Hrun) as (lj & Hlj & Hlj1 & Hlj').
  { rewrite lookup_drop. replace (S i + (j - S i))%nat with j by lia. exact Hj. }
  { replace (S i + (j - S i))%nat with j by lia. rewrite Hj1. exact Hfj. }
  replace (S i + (j - S i))%nat with j in Hlj by lia.
  destruct (renderObjects_runs gp esid (drop (S i) objs) (S i) ch1 w1)
    as (ch2 & w2 & Hrun2 & _ & Hext2 & _).
  rewrite Hrun in Hrun2. inversion Hrun2; subst w2. clear Hrun2.
  exists li, lj. split; [|split; [exact Hlj|]].
  - rewrite <- Hli.
    eapply renderObjects_other_keys; [exact Hesid1|exact Hrun|].
    intros j' Hj' Heq. apply childKey_inj in Heq. lia.
  - split; [congruence|]. split; [exact Hli0|]. split.
    + destruct (heap w !! lj) eqn:Hw; [|reflexivity].
      destruct (extends_lookup_mono esid (heap w) (heap w1) lj Hext1)
        as [x Hx]; [eauto|]. congruence.
    + split; [|exact Hlj'].
      destruct Hext2 as [Hother _]. apply Hother; [|exact Hli1].
      intros ->. destruct Hesid as [x Hx]. congruence.
Qed.

(** X5: each child gets its own expansion state.  Two different indices
    whose slots were missing or falsy before the render end up with two
    different objects, both allocated by this render (absent from the heap
    before, hence different from the expansion-state object itself) and
    both empty. *)
Theorem fresh_slots_are_distinct this provider w d objs el w' i j :
  data (rec_of this) = Some d ->
  data_type d = Some "objects" ->
  objects d = Some objs ->
  is_Some (heap w !! expansionStateId (props this)) ->
  _renderNestedValueComponent this provider w = (Ok el, w') ->
  (i < length objs)%nat -> (j < length objs)%nat -> i <> j ->
  truthy (JS.get (heap w) (expansionStateId (props this)) (childKey i)) = false ->
  truthy (JS.get (heap w) (expansionStateId (props this)) (childKey j)) = false ->
  exists li lj,
    JS.get (heap w') (expansionStateId (props this)) (childKey i) = VObj li /\
    JS.get (heap w') (expansionStateId (props this)) (childKey j) = VObj lj /\
    li <> lj /\
    li <> expansionStateId (props this) /\
    lj <> expansionStateId (props this) /\
    heap w !! li = None /\ heap w !! lj = None /\
    heap w' !! li = Some ∅ /\ heap w' !! lj = Some ∅.
Proof.
  intros Hd Ht Ho Hesid Hrun Hi Hj Hij Hfi Hfj.
  rewrite (renderNested_objects this provider w d objs Hd Ht Ho) in Hrun.
  set (gp := match provider with None => None | Some p => getProperties p end)
    in *.
  set (esid := expansionStateId (props this)) in *.
  destruct (renderObjects gp esid 0 objs [] w) as [[ch|e] w1] eqn:Hloop;
    [|discriminate].
  inversion Hrun; subst el w1. clear Hrun.
  destruct (lookup_lt_is_Some_2 objs i Hi) as [oi Hoi].
  destruct (lookup_lt_is_Some_2 objs j Hj) as [oj Hoj].
  assert (forall l, heap w !! l = None -> l <> esid) as Hne.
  { intros l Hl ->. destruct Hesid as [x Hx]. congruence. }
  destruct (decide (i < j)%nat) as [Hlt|Hge].
  - destruct (renderObjects_fresh_pair gp esid objs w ch w' i j oi oj
                Hesid Hloop Hlt Hoi Hoj Hfi Hfj)
      as (li & lj & H1 & H2 & H3 & H4 & H5 & H6 & H7).
    exists li, lj. repeat split; auto.
  - destruct (renderObjects_fresh_pair gp esid objs w ch w' j i oj oi
                Hesid Hloop ltac:(lia) Hoj Hoi Hfj Hfi)
      as (lj & li & H1 & H2 & H3 & H4 & H5 & H6 & H7).
    exists li, lj. repeat split; auto.
Qed.

Lemma fresh_slots_are_distinct_witness :
  exists el w' li lj,
    _renderNestedValueComponent (Examples.mounted Examples.objectsLog) None
                                (Examples.world Examples.emptyState 0)
    = (Ok el, w') /\
    JS.get (heap w') 1%positive (childKey 0) = VObj li /\
    JS.get (heap w') 1%positive (childKey 1) = VObj lj /\
    li <> lj.
Proof.
  assert (exists el w',
            _renderNestedValueComponent (Examples.mounted Examples.objectsLog)
                                        None
                                        (Examples.world Examples.emptyState 0)
            = (Ok el, w')) as (el & w' & Hrun).
  { eexists _, _. vm_compute. reflexivity. }
  destruct (fresh_slots_are_distinct
              (Examples.mounted Examples.objectsLog) None
              (Examples.world Examples.emptyState 0)
              Examples.twoObjects [Examples.primitive; Examples.handle]
              el w' 0%nat 1%nat eq_refl eq_refl eq_refl)
    as (li & lj & H1 & H2 & H3 & _).
  - exists ∅. reflexivity.
  - exact Hrun.
  - cbn. lia.
  - cbn. lia.
  - discriminate.
  - reflexivity.
  - reflexivity.
  - exists el, w', li, lj. auto.
Defined.

(** *** The other branches of the content selection *)

Section Branches.

Variable parseText : string -> list node.

(** X6: a response, or any other non-request record that carries data,
    whose data is not of type "objects" is rendered as exactly one lazily
    expandable node: the record's data itself is the evaluation result
    (also when a response has no data at all), the whole expansion-state
    object is the expansion state, the fetcher comes from the executor for
    a response and from the source provider otherwise (none when the
    lookup finds nothing), and the world is not touched. *)
Theorem single_value_content this w :
  kind (rec_of this) <> "request" ->
  kind (rec_of this) = "response" \/ data (rec_of this) <> None ->
  (forall d, data (rec_of this) = Some d -> data_type d <> Some "objects") ->
  _renderContent parseText this w =
  (Ok (LazyNestedValueComponent
         "console-lazy-nested-value"
         (EvalData (data (rec_of this)))
         (match (if String.eqb (kind (rec_of this)) "response"
                 then deref (getExecutor (props this))
                 else deref (getProvider (props this)))
                  (sourceId (rec_of this)) with
          | None => None
          | Some p => getProperties p
          end)
         (getComponent (match data (rec_of this) with
                        | None => None
                        | Some d => data_type d
                        end))
         true
         (VObj (expansionStateId (props this)))), w).
Proof.
  intros Hreq Hnested Htype.
  assert (str_is (match data (rec_of this) with
                  | None => None
                  | Some d => data_type d
                  end) "objects" = false) as Hnot.
  { destruct (data (rec_of this)) as [d|] eqn:Hd; [|reflexivity].
    specialize (Htype d eq_refl).
    destruct (data_type d) as [t|]; [|reflexivity].
    cbn. apply eqb_lit_false. congruence. }
  unfold _renderContent. rewrite (eqb_lit_false _ _ Hreq).
  destruct (String.eqb (kind (rec_of this)) "response") eqn:Hresp.
  - unfold _renderNestedValueComponent. rewrite Hnot. reflexivity.
  - destruct Hnested as [Hk | Hdata].
    + rewrite Hk in Hresp. discriminate Hresp.
    + destruct (data (rec_of this)) as [d|] eqn:Hd; [|contradiction].
      unfold _renderNestedValueComponent. rewrite Hd in *. rewrite Hnot.
      reflexivity.
Qed.

(** X7: a record that is neither a request nor a response, has no data
    and whose format is not "ansi" is rendered as a [<pre>] around
    [parseText] of its text, or of a single space when the text is empty
    or absent; the world is not touched. *)
Theorem plain_log_content this w :
  kind (rec_of this) <> "request" ->
  kind (rec_of this) <> "response" ->
  data (rec_of this) = None ->
  format (rec_of this) <> Some "ansi" ->
  (forall s, text (rec_of this) = Some s -> s <> "" ->
     _renderContent parseText this w = (Ok (Pre (parseText s)), w)) /\
  (text (rec_of this) = Some "" \/ text (rec_of this) = None ->
     _renderContent parseText this w = (Ok (Pre (parseText " ")), w)).
Proof.
  intros Hreq Hresp Hd Hf.
  assert (str_is (format (rec_of this)) "ansi" = false) as Hnot.
  { destruct (format (rec_of this)) as [f|]; [|reflexivity].
    cbn. apply eqb_lit_false. congruence. }
  unfold _renderContent.
  rewrite (eqb_lit_false _ _ Hreq), (eqb_lit_false _ _ Hresp), Hd, Hnot.
  split.
  - intros s -> Hs. cbn. rewrite (eqb_lit_false _ _ Hs). reflexivity.
  - intros [-> | ->]; reflexivity.
Qed.

End Branches.

Lemma single_value_content_witness :
  _renderContent Examples.parse (Examples.mounted Examples.emptyResponse)
                 (Examples.world Examples.emptyState 0)
  = (Ok (LazyNestedValueComponent
           "console-lazy-nested-value" (EvalData None) (Some 70%positive)
           SimpleValueComponentType true (VObj 1%positive)),
     Examples.world Examples.emptyState 0).
Proof.
  apply (single_value_content Examples.parse
           (Examples.mounted Examples.emptyResponse)
           (Examples.world Examples.emptyState 0)).
  - discriminate.
  - left. reflexivity.
  - intros d Hd. discriminate Hd.
Defined.

Lemma plain_log_content_witness :
  _renderContent Examples.parse (Examples.mounted Examples.emptyLog)
                 (Examples.world Examples.emptyState 0)
  = (Ok (Pre [Text " "]), Examples.world Examples.emptyState 0).
Proof.
  apply (plain_log_content Examples.parse (Examples.mounted Examples.emptyLog)
           (Examples.world Examples.emptyState 0)).
  - discriminate.
  - discriminate.
  - reflexivity.
  - discriminate.
  - right. reflexivity.
Defined.

(** *** Lifecycle and height reports *)

Section Lifecycle.

Variable parseText : string -> list node.

(** X8: rendering itself never reports a height: whatever the record,
    [render] leaves the log of [onHeightChange] calls, the clock and the
    layout as they were; reports are made by the lifecycle methods and the
    debounce timer only. *)
Theorem render_reports_nothing this w :
  heightChanges (snd (render parseText this w)) = heightChanges w /\
  clock (snd (render parseText this w)) = clock w /\
  layout (snd (render parseText this w)) = layout w.
Proof.
  split; [apply render_frame|].
  assert (clock (snd (_renderContent parseText this w)) = clock w /\
          layout (snd (_renderContent parseText this w)) = layout w) as Hc.
  { unfold _renderContent.
    destruct (String.eqb _ "request"); [auto|].
    destruct (String.eqb _ "response"); [apply renderNested_frame|].
    destruct (data (rec_of this)); [apply renderNested_frame|].
    destruct (str_is _ "ansi"); auto. }
  unfold render, bind.
  destruct (renderTimestamp_runs (timestamp (rec_of this)) w) as [n Hn].
  rewrite Hn.
  destruct (_renderContent parseText this w) as [[c|e] w1]; exact Hc.
Qed.

(** X9: mounting a record that renders reports its height exactly once:
    the instance ends up with the given props and the wrapper attached, and
    the log grows by one call of the [onHeightChange] prop with the mounted
    record and the wrapper's [offsetHeight]; the heap is the one [render]
    left. *)
Theorem mount_reports_once p el w tree w1 :
  render parseText (constructor p) w = (Ok tree, w1) ->
  exists this w2,
    mount parseText p el w = (Ok this, w2) /\
    props this = p /\ _wrapper this = Some el /\
    heap w2 = heap w1 /\
    heightChanges w2
    = heightChanges w ++ [(onHeightChange p, record p, layout w el)].
Proof.
  intros Hr.
  destruct (render_reports_nothing (constructor p) w) as (Hh & _ & Hl).
  unfold mount, bind. rewrite Hr in *. cbn [snd] in *.
  eexists _, _. split; [reflexivity|].
  cbn. rewrite Hh, Hl. auto.
Qed.

(** X10: an update whose next props carry a different record object
    re-renders and, when the wrapper is attached and the render succeeds,
    reports the height exactly once, with the new record and through the
    new [onHeightChange] prop. *)
Theorem update_new_record_reports_once this nextProps el w tree w1 :
  ref_id (record (props this)) <> ref_id (record nextProps) ->
  _wrapper this = Some el ->
  render parseText (set_props nextProps this) w = (Ok tree, w1) ->
  shouldComponentUpdate this nextProps = true /\
  exists w2,
    update parseText nextProps this w = (Ok (set_props nextProps this), w2) /\
    heap w2 = heap w1 /\
    heightChanges w2
    = heightChanges w ++
      [(onHeightChange nextProps, record nextProps, layout w el)].
Proof.
  intros Hne Hw Hr.
  assert (shouldComponentUpdate this nextProps = true) as Hscu.
  { unfold shouldComponentUpdate.
    destruct (shallowEqual (props this) nextProps) eqn:Heq; [|reflexivity].
    apply shallowEqual_spec in Heq. destruct Heq as [Hrec _]. contradiction. }
  split; [exact Hscu|].
  destruct (render_reports_nothing (set_props nextProps this) w)
    as (Hh & _ & Hl).
  unfold update, bind. rewrite Hscu, Hr in *. cbn [snd] in *.
  eexists. split; [reflexivity|].
  unfold componentDidUpdate, same. cbn [props set_props].
  rewrite bool_decide_eq_false_2 by congruence. cbn [negb].
  unfold measureAndNotifyHeight. cbn [_wrapper set_props]. rewrite Hw.
  cbn. rewrite Hh, Hl. auto.
Qed.

(** X11: [shouldComponentUpdate] asks for a re-render exactly when at
    least one of the six props differs from the current one (objects and
    functions by identity, the boolean by value). *)
Theorem shouldComponentUpdate_true_iff this nextProps :
  shouldComponentUpdate this nextProps = true <->
  ref_id (record (props this)) <> ref_id (record nextProps) \/
  showSourceLabel (props this) <> showSourceLabel nextProps \/
  ref_id (getExecutor (props this)) <> ref_id (getExecutor nextProps) \/
  ref_id (getProvider (props this)) <> ref_id (getProvider nextProps) \/
  onHeightChange (props this) <> onHeightChange nextProps \/
  expansionStateId (props this) <> expansionStateId nextProps.
Proof.
  unfold shouldComponentUpdate. rewrite Bool.negb_true_iff.
  rewrite <- Bool.not_true_iff_false, shallowEqual_spec.
  destruct (decide (ref_id (record (props this)) = ref_id (record nextProps)));
    [|tauto].
  destruct (decide (showSourceLabel (props this) = showSourceLabel nextProps));
    [|tauto].
  destruct (decide (ref_id (getExecutor (props this))
                    = ref_id (getExecutor nextProps))); [|tauto].
  destruct (decide (ref_id (getProvider (props this))
                    = ref_id (getProvider nextProps))); [|tauto].
  destruct (decide (onHeightChange (props this) = onHeightChange nextProps));
    [|tauto].
  destruct (decide (expansionStateId (props this) = expansionStateId nextProps));
    tauto.
Qed.

End Lifecycle.

Lemma mount_reports_once_witness :
  exists this w2,
    mount Examples.parse (Examples.mkProps 100%positive Examples.ansiLog)
          9%positive (Examples.world Examples.emptyState 0)
    = (Ok this, w2) /\
    heightChanges w2 = [(60%positive, Ref 100%positive Examples.ansiLog, 17)].
Proof.
  destruct (mount_reports_once Examples.parse
              (Examples.mkProps 100%positive Examples.ansiLog) 9%positive
              (Examples.world Examples.emptyState 0) _ _ eq_refl)
    as (this & w2 & Hm & _ & _ & _ & Hh).
  exists this, w2. split; [exact Hm|exact Hh].
Defined.

Lemma update_new_record_reports_once_witness :
  exists w2,
    update Examples.parse (Examples.mkProps 101%positive Examples.ansiLog)
           (Examples.mounted Examples.ansiLog)
           (Examples.world Examples.emptyState 0)
    = (Ok (set_props (Examples.mkProps 101%positive Examples.ansiLog)
                     (Examples.mounted Examples.ansiLog)), w2) /\
    heightChanges w2 = [(60%positive, Ref 101%positive Examples.ansiLog, 17)].
Proof.
  destruct (update_new_record_reports_once Examples.parse
              (Examples.mounted Examples.ansiLog)
              (Examples.mkProps 101%positive Examples.ansiLog) 9%positive
              (Examples.world Examples.emptyState 0) _ _
              ltac:(discriminate) eq_refl eq_refl)
    as (_ & w2 & Hu & _ & Hh).
  exists w2. split; [exact Hu|exact Hh].
Defined.

(** A re-render caused by another prop (here the source-label flag) with
    the same record object reports nothing. *)
Lemma update_same_record_no_report_witness :
  heightChanges
    (snd (update Examples.parse (Examples.labelled Examples.ansiLog)
                 (Examples.mounted Examples.ansiLog)
                 (Examples.world Examples.emptyState 0)))
  = [].
Proof.
  apply (update_same_record_no_report Examples.parse
           (Examples.mounted Examples.ansiLog)
           (Examples.labelled Examples.ansiLog)
           (Examples.world Examples.emptyState 0)
           (set_props (Examples.labelled Examples.ansiLog)
                      (Examples.mounted Examples.ansiLog))).
  - reflexivity.
  - reflexivity.
Defined.

Lemma shouldComponentUpdate_true_iff_witness :
  shouldComponentUpdate (Examples.mounted Examples.ansiLog)
                        (Examples.labelled Examples.ansiLog) = true.
Proof.
  apply (proj2 (shouldComponentUpdate_true_iff
                  (Examples.mounted Examples.ansiLog)
                  (Examples.labelled Examples.ansiLog))).
  right. left. discriminate.
Defined.

(** *** What the rendered frame shows *)

Lemma append_empty_r (s : string) : s +:+ "" = s.
Proof.
  induction s as [|c s IH]; [reflexivity|].
  change (String c (s +:+ "") = String c s). rewrite IH. reflexivity.
Qed.

Section Frame.

Variable parseText : string -> list node.

(** X13: the duplicate-count badge is in the tree exactly when
    [repeatCount] is greater than 1, and then shows that count. *)
Theorem badge_iff_repeated this w tree w' :
  render parseText this w = (Ok tree, w') ->
  (1 < repeatCount (rec_of this) ->
   badgeChild tree
   = Some (Div false "console-record-duplicate-number"
               [Number (repeatCount (rec_of this))])) /\
  (repeatCount (rec_of this) <= 1 -> badgeChild tree = Some Nothing).
Proof.
  intros H. apply render_shape in H. destruct H as (_ & _ & Hb & _).
  rewrite Hb. split; intros Hc.
  - apply Z.ltb_lt in Hc. rewrite Hc. reflexivity.
  - apply Z.ltb_ge in Hc. rewrite Hc. reflexivity.
Qed.

(** X14: the source label is in the tree exactly when [showSourceLabel]
    is set; it shows the source name, or the source id when the record has
    no name, and its class is "console-record-source-label" followed by
    the highlight class of the record's level. *)
Theorem source_label_shows_name_or_id this w tree w' :
  render parseText this w = (Ok tree, w') ->
  (showSourceLabel (props this) = false ->
   sourceLabelChild tree = Some Nothing) /\
  (showSourceLabel (props this) = true ->
   exists shown,
     sourceLabelChild tree
     = Some (Span None None
                  ("console-record-source-label "
                     +:+ getHighlightClassName (level (rec_of this)))
                  [Text shown]) /\
     (forall name, sourceName (rec_of this) = Some name -> shown = name) /\
     (sourceName (rec_of this) = None -> shown = sourceId (rec_of this))).
Proof.
  intros H. apply render_shape in H. destruct H as (_ & _ & _ & Hs & _).
  rewrite Hs. split; intros ->; [reflexivity|].
  eexists. split; [reflexivity|]. split.
  - intros name ->. reflexivity.
  - intros ->. reflexivity.
Qed.

(** X15: the class of the wrapper is "console-record level-L", with L the
    record's level or "log" when the level is empty or absent, followed by
    " request" for a request and by " response" for a response, and by
    nothing else. *)
Theorem wrapper_class_names this w tree w' :
  render parseText this w = (Ok tree, w') ->
  rootClassName tree
  = Some ("console-record level-"
            +:+ str_or (level (rec_of this)) "log"
            +:+ (if String.eqb (kind (rec_of this)) "request" then " request"
                 else if String.eqb (kind (rec_of this)) "response"
                      then " response"
                      else "")).
Proof.
  intros H. apply render_shape in H. destruct H as (Hc & _).
  rewrite Hc. f_equal. unfold classnames.
  destruct (String.eqb (kind (rec_of this)) "request") eqn:Hreq.
  - apply String.eqb_eq in Hreq. rewrite Hreq. reflexivity.
  - destruct (String.eqb (kind (rec_of this)) "response").
    + reflexivity.
    + rewrite append_empty_r. reflexivity.
Qed.

(** X16: the tree has an icon exactly when [getIconName] names one, and
    the icon's class is "icon icon-" followed by that name; the content
    slot holds what [_renderContent] returned, and the progress bar is
    visible exactly when the record is incomplete. *)
Theorem frame_icon_content_progress this w tree w' :
  render parseText this w = (Ok tree, w') ->
  (getIconName (rec_of this) = None -> iconChild tree = Some Nothing) /\
  (forall name, getIconName (rec_of this) = Some name ->
     iconChild tree = Some (Span None None ("icon icon-" +:+ name) [])) /\
  (exists c, _renderContent parseText this w = (Ok c, w') /\
             contentChild tree = Some c) /\
  progressChild tree = Some (FullWidthProgressBar (incomplete (rec_of this))).
Proof.
  intros H. pose proof (render_shape _ _ _ _ _ H) as (_ & Hi & _ & _ & Hp).
  split; [|split; [|split]].
  - intros Hn. rewrite Hi, Hn. reflexivity.
  - intros name Hn. rewrite Hi, Hn.
    assert (name <> "") as Hne.
    { unfold getIconName in Hn.
      repeat match type of Hn with
             | (if ?b then _ else _) = _ => destruct b
             end; inversion Hn; discriminate. }
    rewrite (eqb_lit_false _ _ Hne). reflexivity.
  - pose proof (render_outcome parseText this w) as Hout.
    destruct (_renderContent parseText this w) as [[c|e] w1].
    + destruct Hout as (el & Hel & Hc). rewrite H in Hel.
      inversion Hel; subst. eauto.
    + rewrite H in Hout. discriminate Hout.
  - exact Hp.
Qed.

End Frame.

Lemma badge_iff_repeated_witness :
  exists tree w',
    render Examples.parse (Examples.mounted Examples.repeated)
           (Examples.world Examples.emptyState 0) = (Ok tree, w') /\
    badgeChild tree
    = Some (Div false "console-record-duplicate-number" [Number 3]).
Proof.
  eexists _, _. split; [reflexivity|].
  apply (proj1 (badge_iff_repeated Examples.parse
                  (Examples.mounted Examples.repeated)
                  (Examples.world Examples.emptyState 0) _ _ eq_refl)).
  reflexivity.
Defined.

Lemma source_label_shows_name_or_id_witness :
  exists tree w' shown,
    render Examples.parse
           (set_props (Examples.labelled Examples.ansiLog)
                      (Examples.mounted Examples.ansiLog))
           (Examples.world Examples.emptyState 0) = (Ok tree, w') /\
    sourceLabelChild tree
    = Some (Span None None "console-record-source-label highlight-info"
                 [Text shown]).
Proof.
  destruct (proj2 (source_label_shows_name_or_id Examples.parse
                     (set_props (Examples.labelled Examples.ansiLog)
                                (Examples.mounted Examples.ansiLog))
                     (Examples.world Examples.emptyState 0) _ _ eq_refl)
                  eq_refl)
    as (shown & Hs & _).
  eexists _, _, shown. split; [reflexivity|exact Hs].
Defined.

Lemma wrapper_class_names_witness :
  exists tree w',
    render Examples.parse (Examples.mounted Examples.ansiRequest)
           (Examples.world Examples.emptyState 0) = (Ok tree, w') /\
    rootClassName tree = Some "console-record level-error request".
Proof.
  eexists _, _. split; [reflexivity|].
  apply (wrapper_class_names Examples.parse
           (Examples.mounted Examples.ansiRequest)
           (Examples.world Examples.emptyState 0) _ _ eq_refl).
Defined.

Lemma frame_icon_content_progress_witness :
  exists tree w',
    render Examples.parse (Examples.mounted Examples.repeated)
           (Examples.world Examples.emptyState 0) = (Ok tree, w') /\
    iconChild tree = Some (Span None None "icon icon-stop" []).
Proof.
  eexists _, _. split; [reflexivity|].
  apply (proj1 (proj2 (frame_icon_content_progress Examples.parse
                         (Examples.mounted Examples.repeated)
                         (Examples.world Examples.emptyState 0) _ _ eq_refl))
           "stop").
  reflexivity.
Defined.

(** *** The type and level tables *)

(** X17: "text" is the only type rendered by the text renderer; every
    other type, known or unknown, and an absent type get the generic
    simple-value component. *)
Theorem getComponent_text_only (type : option string) :
  (getComponent type = TextRendererWrapper <-> type = Some "text") /\
  (getComponent type = SimpleValueComponentType <-> type <> Some "text").
Proof.
  unfold getComponent.
  destruct type as [t|]; cbn.
  - destruct (String.eqb t "text") eqn:Ht.
    + apply String.eqb_eq in Ht. subst t.
      split; split; intros H; try reflexivity; try discriminate.
      contradiction.
    + apply String.eqb_neq in Ht.
      assert (Some t <> Some "text") by congruence.
      destruct (_ || _); split; split; intros H'; try reflexivity;
        try discriminate; try assumption; contradiction.
  - split; split; intros H; try reflexivity; discriminate.
Qed.

(** X18: the icon table and the highlight table know the same four
    levels: for a record that is neither a request nor a response, there
    is no icon exactly when the source label gets the neutral "highlight"
    class. *)
Theorem icon_and_highlight_agree (r : Record_) :
  kind r <> "request" -> kind r <> "response" ->
  (getIconName r = None <-> getHighlightClassName (level r) = "highlight").
Proof.
  intros Hreq Hresp. unfold getIconName, getHighlightClassName.
  rewrite (eqb_lit_false _ _ Hreq), (eqb_lit_false _ _ Hresp).
  destruct (str_is (level r) "info");
    [split; intros H; discriminate H|].
  destruct (str_is (level r) "success");
    [split; intros H; discriminate H|].
  destruct (str_is (level r) "warning");
    [split; intros H; discriminate H|].
  destruct (str_is (level r) "error");
    [split; intros H; discriminate H|].
  split; reflexivity.
Qed.

Lemma icon_and_highlight_agree_witness :
  getIconName (Examples.mkRecord "message" (Some "debug") None None None None)
  = None.
Proof.
  apply (proj2 (icon_and_highlight_agree
                  (Examples.mkRecord "message" (Some "debug") None None None None)
                  ltac:(discriminate) ltac:(discriminate))).
  reflexivity.
Defined.
